(** * ASL parameter validation: the condition evaluator, the schema engine
      and the domain rule functions

    Shallow embedding of [json_validation.py], [utils.py] and
    [info_extraction_from_json.py], followed by the properties that the
    specification states about them. *)

From Stdlib Require Import ZArith Floats.SpecFloat.
From stdpp Require Import gmap strings list fin_maps pretty.

Set Warnings "-register-all".

Local Open Scope Z_scope.

(** ** Python values

    What [json.load] can produce, which is also what the schema tables hold:
    [None], booleans, integers, floats (IEEE binary64, here the Standard
    Library's [spec_float]), strings, lists and string-keyed dicts (kept in
    insertion order, as Python iterates them). *)

Inductive pyval : Type :=
  | PNone
  | PBool (b : bool)
  | PInt (n : Z)
  | PFloat (f : spec_float)
  | PStr (s : string)
  | PList (l : list pyval)
  | PDict (d : list (string * pyval)).

(** The exact value of a number: not-a-number, an infinity, or the dyadic
    rational [m * 2^e].  Python compares an int with a float exactly, without
    rounding the int first, and a bool is the int 0 or 1. *)
Inductive numval : Type :=
  | NNan
  | NInf (negative : bool)
  | NFin (m e : Z).

Definition float_val (f : spec_float) : numval :=
  match f with
  | S754_zero _ => NFin 0 0
  | S754_infinity s => NInf s
  | S754_nan => NNan
  | S754_finite s m e => NFin (if s then Z.neg m else Z.pos m) e
  end.

Definition num_of (v : pyval) : option numval :=
  match v with
  | PBool b => Some (NFin (Z.b2z b) 0)
  | PInt n => Some (NFin n 0)
  | PFloat f => Some (float_val f)
  | _ => None
  end.

(** Three-way comparison of two numbers; [None] when a NaN is involved, so
    that every ordering test and the equality test on it are false. *)
Definition num_compare (a b : numval) : option comparison :=
  match a, b with
  | NNan, _ | _, NNan => None
  | NInf s1, NInf s2 =>
      Some (match s1, s2 with
            | true, false => Lt
            | false, true => Gt
            | _, _ => Eq
            end)
  | NInf s, NFin _ _ => Some (if s then Lt else Gt)
  | NFin _ _, NInf s => Some (if s then Gt else Lt)
  | NFin m1 e1, NFin m2 e2 =>
      let e := Z.min e1 e2 in
      Some (Z.compare (m1 * 2 ^ (e1 - e)) (m2 * 2 ^ (e2 - e)))
  end.

Fixpoint assoc (k : string) (d : list (string * pyval)) : option pyval :=
  match d with
  | [] => None
  | (k', v) :: d' => if String.eqb k k' then Some v else assoc k d'
  end.

(** Python's [==].  Numbers (bools included) compare by value, strings by
    content, lists element by element, dicts by size and then key by key;
    [None] equals only [None], and values of different kinds are unequal.
    The two operands are always distinct objects here (one comes from the
    record, the other from a schema table or a literal), so the identity
    shortcut that containers take before comparing never hides a NaN. *)
Fixpoint py_eq (a b : pyval) : bool :=
  match a, b with
  | PNone, PNone => true
  | PStr s, PStr t => String.eqb s t
  | PList xs, PList ys =>
      (fix all2 (xs ys : list pyval) : bool :=
         match xs, ys with
         | [], [] => true
         | x :: xs', y :: ys' => py_eq x y && all2 xs' ys'
         | _, _ => false
         end) xs ys
  | PDict xs, PDict ys =>
      Nat.eqb (length xs) (length ys) &&
      (fix sub (xs : list (string * pyval)) : bool :=
         match xs with
         | [] => true
         | (k, v) :: xs' =>
             match assoc k ys with
             | Some w => py_eq v w
             | None => false
             end && sub xs'
         end) xs
  | _, _ =>
      match num_of a, num_of b with
      | Some x, Some y =>
          match num_compare x y with Some Eq => true | _ => false end
      | _, _ => false
      end
  end.

(** [x in l] for a list [l]: some element equals [x]. *)
Definition py_in (x : pyval) (l : list pyval) : bool := existsb (py_eq x) l.

(** Truth value of an object, as [if x:] tests it. *)
Definition py_truthy (v : pyval) : bool :=
  match v with
  | PNone => false
  | PBool b => b
  | PInt n => negb (n =? 0)
  | PFloat f =>
      match f with S754_zero _ => false | _ => true end
  | PStr s => negb (String.eqb s "")
  | PList l => match l with [] => false | _ => true end
  | PDict d => match d with [] => false | _ => true end
  end.

(** ** Exceptions

    An ordering comparison between a non-number and an int raises
    [TypeError]; nothing in the modelled functions catches it. *)

Inductive exn : Type := TypeError.

Inductive result (A : Type) : Type :=
  | Ok (a : A)
  | Raise (e : exn).
Arguments Ok {A} a.
Arguments Raise {A} e.

#[global] Instance result_bind : MBind result :=
  fun A B (k : A -> result B) (r : result A) =>
    match r with
    | Ok a => k a
    | Raise e => Raise e
    end.

(** [v ? c] against an int constant [c], the only ordering comparisons the
    program makes. *)
Definition cmp_int (v : pyval) (c : Z) : result (option comparison) :=
  match num_of v with
  | Some x => Ok (num_compare x (NFin c 0))
  | None => Raise TypeError
  end.

Definition py_lt (v : pyval) (c : Z) : result bool :=
  o ← cmp_int v c; Ok (match o with Some Lt => true | _ => false end).

Definition py_gt (v : pyval) (c : Z) : result bool :=
  o ← cmp_int v c; Ok (match o with Some Gt => true | _ => false end).

Definition py_le (v : pyval) (c : Z) : result bool :=
  o ← cmp_int v c;
  Ok (match o with Some Lt | Some Eq => true | _ => false end).

(** [a or b]: the right operand is evaluated only when the left one is
    false. *)
Definition py_or (a b : result bool) : result bool :=
  match a with
  | Ok true => Ok true
  | Ok false => b
  | Raise e => Raise e
  end.

(** [d.get(key)] and [d.get(key, dflt)] on the record. *)
Definition get (data : gmap string pyval) (key : string) : pyval :=
  default PNone (data !! key).

Definition get_or (data : gmap string pyval) (key : string) (dflt : pyval)
  : pyval :=
  default dflt (data !! key).

(** ** utils.py: thresholds and the domain rule functions *)

Definition MIN_PAIRS_WARNING_THRESHOLD : Z := 0.
Definition MAX_PAIRS_WARNING_THRESHOLD : Z := 10.
Definition MIN_PAIRS_ERROR_THRESHOLD : Z := -1.
Definition MAX_PAIRS_ERROR_THRESHOLD : Z := 100.
Definition VOXEL_SIZE_MIN_WARNING_THRESHOLD : Z := 1.
Definition VOXEL_SIZE_MAX_WARNING_THRESHOLD : Z := 10.
Definition VOXEL_SIZE_MIN_ERROR_THRESHOLD : Z := 0.
Definition VOXEL_SIZE_MAX_ERROR_THRESHOLD : Z := 100.
Definition VALID_ASL_TYPES : list pyval :=
  [PStr "PASL"; PStr "PCASL"; PStr "(P)CASL"; PStr "Velocity-selective"].

Definition MIN_LABELING_DURATION_WARNING : Z := 1.
Definition MAX_LABELING_DURATION_WARNING : Z := 10.
Definition MIN_LABELING_DURATION_ERROR : Z := 0.
Definition MAX_LABELING_DURATION_ERROR : Z := 100.
Definition MIN_POST_LABELING_DELAY_WARNING : Z := 1.
Definition MAX_POST_LABELING_DELAY_WARNING : Z := 10.
Definition MIN_POST_LABELING_DELAY_ERROR : Z := 0.
Definition MAX_POST_LABELING_DELAY_ERROR : Z := 100.

Definition MIN_INVERSION_TIME_ERROR_THRESHOLD : Z := 0.

(** What a domain rule function returns: [(errors, warnings, value)]. *)
Abbreviation outcome := (result (list string * list string * pyval)).

(** An f-string prints an int constant in decimal. *)
Definition str_int (n : Z) : string := pretty n.

(** [py_str] stands for Python's built-in [str()] on an arbitrary object,
    which the f-string applies to the argument and to the list of valid
    types.  It belongs to the interpreter, not to the program, and only
    shapes the text of this one message. *)
Definition validate_asl_type (py_str : pyval -> string) (asl_type : pyval)
  : list string * list string * pyval :=
  let errors := [] in
  let warnings := [] in
  let errors :=
    if negb (py_in asl_type VALID_ASL_TYPES)
    then errors ++ ["Invalid 'ArterialSpinLabelingType': " +:+ py_str asl_type
                      +:+ ". Expected one of "
                      +:+ py_str (PList VALID_ASL_TYPES)]
    else errors in
  (errors, warnings, asl_type).

Definition validate_background_suppression (bs : pyval)
  : list string * list string * pyval :=
  let errors := [] in
  let warnings := [] in
  let errors :=
    if negb (py_in bs [PBool true; PBool false])
    then errors ++
         ["Missing or invalid 'BackgroundSuppression' (should be True or False)"]
    else errors in
  (errors, warnings, if py_truthy bs then PStr "Yes" else PStr "No").

Definition validate_m0b_method (m0b_method : pyval)
  : list string * list string * pyval :=
  let errors := [] in
  let warnings := [] in
  let errors :=
    if negb (py_truthy m0b_method)
    then errors ++ ["Missing or invalid 'Method for M0b estimation'"]
    else errors in
  (errors, warnings, m0b_method).

Definition validate_total_pairs (total_pairs : pyval) : outcome :=
  let errors := [] in
  let warnings := [] in
  out_of_range ← py_or (py_lt total_pairs MIN_PAIRS_ERROR_THRESHOLD)
                       (py_gt total_pairs MAX_PAIRS_ERROR_THRESHOLD);
  if out_of_range : bool then
    Ok (errors ++ ["'TotalAcquiredPairs' out of valid range ("
                     +:+ str_int MIN_PAIRS_ERROR_THRESHOLD +:+ "-"
                     +:+ str_int MAX_PAIRS_ERROR_THRESHOLD +:+ ")"],
        warnings, total_pairs)
  else
    unusual ← py_or (Ok (py_eq total_pairs (PInt 0)))
                    (py_gt total_pairs MAX_PAIRS_WARNING_THRESHOLD);
    if unusual : bool then
      Ok (errors,
          warnings ++
            ["'TotalAcquiredPairs' is 0 or greater than 10, which may be unusual"],
          total_pairs)
    else Ok (errors, warnings, total_pairs).

(** The loop of [validate_voxel_size] over the elements, threading the two
    message lists. *)
Fixpoint voxel_loop (sizes : list pyval) (errors warnings : list string)
  : result (list string * list string) :=
  match sizes with
  | [] => Ok (errors, warnings)
  | size :: rest =>
      out_of_range ← py_or (py_lt size VOXEL_SIZE_MIN_ERROR_THRESHOLD)
                           (py_gt size VOXEL_SIZE_MAX_ERROR_THRESHOLD);
      if out_of_range : bool then
        voxel_loop rest
          (errors ++ ["'AcquisitionVoxelSize' out of valid range (0-100)"])
          warnings
      else
        unusual ← py_or (py_lt size VOXEL_SIZE_MIN_WARNING_THRESHOLD)
                        (py_gt size VOXEL_SIZE_MAX_WARNING_THRESHOLD);
        if unusual : bool then
          voxel_loop rest errors
            (warnings ++
               ["'AcquisitionVoxelSize' is in a warning range (0-1 or 10-100)"])
        else voxel_loop rest errors warnings
  end.

Definition validate_voxel_size (voxel_size : pyval) : outcome :=
  let errors := [] in
  let warnings := [] in
  let malformed :=
    Ok (errors ++
          ["Invalid 'AcquisitionVoxelSize' (should be a list of 3 numbers)"],
        warnings, voxel_size) in
  match voxel_size with
  | PList sizes =>
      if negb (Nat.eqb (length sizes) 3) then malformed
      else
        '(errors, warnings) ← voxel_loop sizes errors warnings;
        Ok (errors, warnings, voxel_size)
  | _ => malformed
  end.

Definition validate_recommended_parameters (data : gmap string pyval)
  : list string * list string * gmap string pyval :=
  let errors := [] in
  let warnings := [] in
  let values : gmap string pyval := ∅ in
  let values :=
    if py_truthy (get data "BackgroundSuppression") then
      let values :=
        <["NumberOfBackgroundSuppressionPulses" :=
            get_or data "BackgroundSuppressionNumberPulses"
              (PStr "Not provided")]> values in
      let values :=
        <["BackgroundSuppressionPulseTiming" :=
            get_or data "BackgroundSuppressionPulseTime"
              (PStr "Not provided")]> values in
      <["BackgroundSuppressionTimingDefinition" :=
          get_or data "BackgroundSuppressionTimingDefinition"
            (PStr "Not provided")]> values
    else
      let values :=
        <["NumberOfBackgroundSuppressionPulses" := PStr "Not applicable"]>
          values in
      let values :=
        <["BackgroundSuppressionPulseTiming" := PStr "Not applicable"]>
          values in
      <["BackgroundSuppressionTimingDefinition" := PStr "Not applicable"]>
        values in
  let values :=
    <["LabelingLocationDescription" :=
        get_or data "LabelingLocationDescription" (PStr "Not provided")]>
      values in
  let values :=
    <["ShimVolume" := get_or data "ShimVolume" (PStr "Not provided")]>
      values in
  let values :=
    if py_truthy (get data "VascularCrushing") then
      let values :=
        <["Venc" := get_or data "Venc" (PStr "Not provided")]> values in
      <["b" := get_or data "b" (PStr "Not provided")]> values
    else
      let values := <["Venc" := PStr "Not applicable"]> values in
      <["b" := PStr "Not applicable"]> values in
  (errors, warnings, values).

Definition validate_labeling_duration (labeling_duration : pyval) : outcome :=
  let errors := [] in
  let warnings := [] in
  out_of_range ← py_or (py_lt labeling_duration MIN_LABELING_DURATION_ERROR)
                       (py_gt labeling_duration MAX_LABELING_DURATION_ERROR);
  if out_of_range : bool then
    Ok (errors ++ ["'LabelingDuration' out of valid range ("
                     +:+ str_int MIN_LABELING_DURATION_ERROR +:+ "-"
                     +:+ str_int MAX_LABELING_DURATION_ERROR +:+ ")"],
        warnings, labeling_duration)
  else
    unusual ← py_or (py_lt labeling_duration MIN_LABELING_DURATION_WARNING)
                    (py_gt labeling_duration MAX_LABELING_DURATION_WARNING);
    if unusual : bool then
      Ok (errors,
          warnings ++
            ["'LabelingDuration' is less than "
               +:+ str_int MIN_LABELING_DURATION_WARNING
               +:+ " or greater than "
               +:+ str_int MAX_LABELING_DURATION_WARNING
               +:+ ", which may be unusual"],
          labeling_duration)
    else Ok (errors, warnings, labeling_duration).

Definition validate_post_labeling_delay (post_labeling_delay : pyval)
  : outcome :=
  let errors := [] in
  let warnings := [] in
  out_of_range ←
    py_or (py_lt post_labeling_delay MIN_POST_LABELING_DELAY_ERROR)
          (py_gt post_labeling_delay MAX_POST_LABELING_DELAY_ERROR);
  if out_of_range : bool then
    Ok (errors ++ ["'PostLabelingDelay' out of valid range ("
                     +:+ str_int MIN_POST_LABELING_DELAY_ERROR +:+ "-"
                     +:+ str_int MAX_POST_LABELING_DELAY_ERROR +:+ ")"],
        warnings, post_labeling_delay)
  else
    unusual ←
      py_or (py_lt post_labeling_delay MIN_POST_LABELING_DELAY_WARNING)
            (py_gt post_labeling_delay MAX_POST_LABELING_DELAY_WARNING);
    if unusual : bool then
      Ok (errors,
          warnings ++
            ["'PostLabelingDelay' is less than "
               +:+ str_int MIN_POST_LABELING_DELAY_WARNING
               +:+ " or greater than "
               +:+ str_int MAX_POST_LABELING_DELAY_WARNING
               +:+ ", which may be unusual"],
          post_labeling_delay)
    else Ok (errors, warnings, post_labeling_delay).

(** The warning branch of the source is a bare string literal, an expression
    statement that does nothing: only the error check runs. *)
Definition validate_inversion_time (inversion_time : pyval) : outcome :=
  let errors := [] in
  let warnings := [] in
  too_small ← py_le inversion_time MIN_INVERSION_TIME_ERROR_THRESHOLD;
  let errors :=
    if too_small : bool
    then errors ++ ["'InversionTime' not greater than "
                      +:+ str_int MIN_INVERSION_TIME_ERROR_THRESHOLD]
    else errors in
  Ok (errors, warnings, inversion_time).

(** ** info_extraction_from_json.py: the domain rule entry points *)

(** What an entry point returns: the two flat message lists and the values
    dict. *)
Abbreviation report := (result (list string * list string * gmap string pyval)).

Definition verify_general_parameters (py_str : pyval -> string)
    (data : gmap string pyval) : report :=
  let errors := [] in
  let warnings := [] in
  let values : gmap string pyval := ∅ in
  let '(e, w, v) :=
    validate_asl_type py_str
      (get_or data "ArterialSpinLabelingType" (PStr "")) in
  let errors := errors ++ e in
  let warnings := warnings ++ w in
  let values := <["ArterialSpinLabelingType" := v]> values in
  let '(e, w, v) :=
    validate_background_suppression (get data "BackgroundSuppression") in
  let errors := errors ++ e in
  let warnings := warnings ++ w in
  let values := <["BackgroundSuppression" := v]> values in
  let '(e, w, v) := validate_m0b_method (get_or data "M0Type" (PStr "")) in
  let errors := errors ++ e in
  let warnings := warnings ++ w in
  let values := <["MethodForM0bEstimation" := v]> values in
  '(e, w, v) ←
    validate_total_pairs (get_or data "TotalAcquiredPairs" (PInt (-1)));
  let errors := errors ++ e in
  let warnings := warnings ++ w in
  let values := <["TotalAcquiredPairs" := v]> values in
  '(e, w, v) ←
    validate_voxel_size (get_or data "AcquisitionVoxelSize" (PList []));
  let errors := errors ++ e in
  let warnings := warnings ++ w in
  let values := <["AcquisitionVoxelSize" := v]> values in
  Ok (errors, warnings, values).

Definition pcasl_demanded (data : gmap string pyval) : bool :=
  py_eq (get data "ArterialSpinLabelingType") (PStr "PCASL")
  || py_eq (get data "ArterialSpinType") (PStr "(P)CASL").

Definition verify_PCASL_required_parameters (data : gmap string pyval)
  : report :=
  let errors := [] in
  let warnings := [] in
  let values : gmap string pyval := ∅ in
  if pcasl_demanded data then
    let labeling_duration := get_or data "LabelingDuration" PNone in
    '(errors, warnings, values) ←
      match labeling_duration with
      | PNone =>
          Ok (errors ++
                ["Required labeling duration parameter for pcasl not provided"],
              warnings, values)
      | _ =>
          '(e, w, v) ← validate_labeling_duration labeling_duration;
          Ok (errors ++ e, warnings ++ w, <["LabelingDuration" := v]> values)
      end;
    let post_labeling_delay := get_or data "PostLabelingDelay" PNone in
    '(errors, warnings, values) ←
      match post_labeling_delay with
      | PNone =>
          Ok (errors ++
                ["Required post labeling delay parameter for pcasl not provided"],
              warnings, values)
      | _ =>
          '(e, w, v) ← validate_post_labeling_delay post_labeling_delay;
          Ok (errors ++ e, warnings ++ w, <["PostLabelingDelay" := v]> values)
      end;
    Ok (errors, warnings, values)
  else
    let values := <["LabelingDuration" := PStr "Not applicable"]> values in
    let values := <["PostLabelingDelay" := PStr "Not applicable"]> values in
    Ok (errors, warnings, values).

(** ** json_validation.py: the schema engine *)

(** A field validator as the engine uses it: [validate(raw)] returns the pair
    [(error, warning)], each tested for truth before it is stored.  The
    validator classes are imported from a module that is not among the
    sources, so a validator is any such function. *)
Record Validator : Type := { validate : pyval -> pyval * pyval }.

(** The three dicts [errors], [warnings] and [values] that the engine fills. *)
Abbreviation outputs :=
  (gmap string pyval * gmap string pyval * gmap string pyval)%type.

Module JSONValidator.

(** The four schema tables held by an instance.  A validator schema is
    iterated, so it keeps its insertion order; a condition schema is only
    read by key. *)
Record t : Type := {
  required_validator_schema : list (string * Validator);
  required_condition_schema : gmap string pyval;
  recommended_validator_schema : list (string * Validator);
  recommended_condition_schema : gmap string pyval
}.

(** The loop over [condition.items()]: leaves with [False] at the first
    entry that does not match, and falls through to the final
    [return True] otherwise. *)
Fixpoint entries_hold (data : gmap string pyval)
    (entries : list (string * pyval)) : bool :=
  match entries with
  | [] => true
  | (key, value) :: rest =>
      match value with
      | PList accepted =>
          if negb (py_in (get data key) accepted) then false
          else entries_hold data rest
      | _ =>
          if negb (py_eq (get data key) value) then false
          else entries_hold data rest
      end
  end.

Definition should_apply_validation (data : gmap string pyval)
    (condition : pyval) : bool :=
  if py_eq condition (PStr "all") then true
  else
    match condition with
    | PDict entries => entries_hold data entries
    | _ => true
    end.

(** The body of the loop of [apply_schema] for one schema entry. *)
Definition apply_field (condition_schema : gmap string pyval)
    (data : gmap string pyval) (is_required : bool)
    (out : outputs) (entry : string * Validator) : outputs :=
  let '(errors, warnings, values) := out in
  let '(field, validator) := entry in
  let condition := default (PStr "all") (condition_schema !! field) in
  if should_apply_validation data condition then
    match data !! field with
    | None =>
        if is_required then
          (<[field := PStr "Missing required parameter"]> errors,
           warnings, values)
        else
          (errors, warnings,
           <[field := PStr "Recommended to be specified"]> values)
    | Some raw =>
        let '(error, warning) := validate validator raw in
        let errors :=
          if py_truthy error then <[field := error]> errors else errors in
        let warnings :=
          if py_truthy warning then <[field := warning]> warnings
          else warnings in
        (errors, warnings, <[field := raw]> values)
    end
  else out.

Definition apply_schema (validator_schema : list (string * Validator))
    (condition_schema : gmap string pyval) (data : gmap string pyval)
    (out : outputs) (is_required : bool) : outputs :=
  fold_left (apply_field condition_schema data is_required)
    validator_schema out.

Definition validate (self : t) (data : gmap string pyval) : outputs :=
  let out : outputs := (∅, ∅, ∅) in
  let out :=
    apply_schema (required_validator_schema self)
      (required_condition_schema self) data out true in
  apply_schema (recommended_validator_schema self)
    (recommended_condition_schema self) data out false.

(** The condition tables of [main], and its validator tables with the
    validator of each field supplied by [validator_of]. *)
Definition PCASL_or_CASL : pyval :=
  PDict [("ArterialSpinLabelingType", PList [PStr "PCASL"; PStr "CASL"])].

Definition labeling_is (kind : string) : pyval :=
  PDict [("ArterialSpinLabelingType", PStr kind)].

Definition main_required_condition_schema : gmap string pyval :=
  list_to_map
    [("ArterialSpinLabelingType", PStr "all");
     ("BackgroundSuppression", PStr "all");
     ("M0Type", PStr "all");
     ("TotalAcquiredPairs", PStr "all");
     ("AcquisitionVoxelSize", PStr "all");
     ("LabelingDuration", PCASL_or_CASL);
     ("PostLabelingDelay", PCASL_or_CASL);
     ("InversionTime", labeling_is "PASL");
     ("BolusCutOffTechnique", labeling_is "PASL");
     ("BolusCutOffDelayTime", labeling_is "PASL")].

Definition main_recommended_condition_schema : gmap string pyval :=
  list_to_map
    [("BackgroundSuppressionNumberPulses",
      PDict [("BackgroundSuppression", PBool true)]);
     ("BackgroundSuppressionPulseTime",
      PDict [("BackgroundSuppression", PBool true)]);
     ("LabelingLocationDescription", PStr "all");
     ("VascularCrushingVENC", PDict [("VascularCrushing", PBool true)]);
     ("PCASLType", labeling_is "PCASL");
     ("CASLType", labeling_is "CASL");
     ("LabelingDistance", PStr "all");
     ("LabelingPulseAverageGradient", PCASL_or_CASL);
     ("LabelingPulseMaximumGradient", PCASL_or_CASL);
     ("LabelingPulseAverageB1", PCASL_or_CASL);
     ("LabelingPulseFlipAngle", PCASL_or_CASL);
     ("LabelingPulseInterval", PCASL_or_CASL);
     ("LabelingPulseDuration", PCASL_or_CASL);
     ("PASLType", labeling_is "PASL");
     ("LabelingSlabThickness", labeling_is "PASL")].

Definition main_required_fields : list string :=
  ["ArterialSpinLabelingType"; "BackgroundSuppression"; "M0Type";
   "TotalAcquiredPairs"; "AcquisitionVoxelSize"; "LabelingDuration";
   "PostLabelingDelay"; "InversionTime"; "BolusCutOffTechnique";
   "BolusCutOffDelayTime"].

Definition main_recommended_fields : list string :=
  ["BackgroundSuppressionNumberPulses"; "BackgroundSuppressionPulseTime";
   "LabelingLocationDescription"; "VascularCrushingVENC"; "PCASLType";
   "CASLType"; "LabelingDistance"; "LabelingPulseAverageGradient";
   "LabelingPulseMaximumGradient"; "LabelingPulseAverageB1";
   "LabelingPulseFlipAngle"; "LabelingPulseInterval";
   "LabelingPulseDuration"; "PASLType"; "LabelingSlabThickness"].

Definition main_validator (validator_of : string -> Validator) : t :=
  {| required_validator_schema :=
       map (fun field => (field, validator_of field)) main_required_fields;
     required_condition_schema := main_required_condition_schema;
     recommended_validator_schema :=
       map (fun field => (field, validator_of field))
         main_recommended_fields;
     recommended_condition_schema := main_recommended_condition_schema |}.

End JSONValidator.

(** The condition of a field as [apply_schema] resolves it in each of the two
    passes of [validate], evaluated on a record. *)
Definition required_applies (self : JSONValidator.t)
    (data : gmap string pyval) (field : string) : bool :=
  JSONValidator.should_apply_validation data
    (default (PStr "all") (JSONValidator.required_condition_schema self !! field)).

Definition recommended_applies (self : JSONValidator.t)
    (data : gmap string pyval) (field : string) : bool :=
  JSONValidator.should_apply_validation data
    (default (PStr "all")
       (JSONValidator.recommended_condition_schema self !! field)).

(** Modelled from the spec: the validator classes live in [validator.py],
    which is not among the sources.  This one follows the specification's
    boolean validator (an error unless the value is exactly true or false,
    never a warning), in the two-component shape that [apply_schema] unpacks.
    It only serves as the validator of the worked instances below. *)
Definition boolean_validator : Validator :=
  {| validate := fun raw =>
       (match raw with
        | PBool _ => PNone
        | _ => PStr "Invalid value (should be True or False)"
        end,
        PNone) |}.

(** The entries of the three output dicts under one field name. *)
Definition at_field (field : string) (out : outputs)
  : option pyval * option pyval * option pyval :=
  (out.1.1 !! field, out.1.2 !! field, out.2 !! field).

(** For a field that the record holds: each of [errors] and [warnings] is
    empty under the field or holds the truthy message of a validator that
    one of the entries [listed] gives for the field. *)
Definition from_validators (data : gmap string pyval)
    (listed : list (string * Validator)) (field : string) (raw : pyval)
    (out : outputs) : Prop :=
  (out.1.1 !! field = None
   ∨ ∃ validator, (field, validator) ∈ listed
       ∧ out.1.1 !! field = Some (validate validator raw).1
       ∧ py_truthy (validate validator raw).1 = true)
  ∧ (out.1.2 !! field = None
     ∨ ∃ validator, (field, validator) ∈ listed
         ∧ out.1.2 !! field = Some (validate validator raw).2
         ∧ py_truthy (validate validator raw).2 = true).

(** ** Sample inputs

    The complete PCASL record of the specification's scenarios. *)

(** The float that [json.load] reads from [1.8], and the one it reads from
    [0.5]. *)
Definition float_1_8 : spec_float := S754_finite false 8106479329266893 (-52).
Definition float_0_5 : spec_float := S754_finite false 4503599627370496 (-53).

Definition scenario_record : gmap string pyval :=
  <["ArterialSpinLabelingType" := PStr "PCASL"]>
    (<["BackgroundSuppression" := PBool true]>
       (<["M0Type" := PStr "Separate"]>
          (<["TotalAcquiredPairs" := PInt 5]>
             (<["AcquisitionVoxelSize" := PList [PInt 3; PInt 3; PInt 3]]>
                (<["LabelingDuration" := PFloat float_1_8]>
                   {["PostLabelingDelay" := PFloat float_1_8]}))))).

(** * Properties *)

(** ** Comparisons against an int constant *)

Lemma cmp_int_of_int (n c : Z) : cmp_int (PInt n) c = Ok (Some (n ?= c)).
Proof. unfold cmp_int; simpl. by rewrite !Z.mul_1_r. Qed.

Lemma py_lt_int (n c : Z) : py_lt (PInt n) c = Ok (bool_decide (n < c)).
Proof.
  unfold py_lt. rewrite cmp_int_of_int. simpl.
  destruct (Z.compare_spec n c); case_bool_decide; (done || lia).
Qed.

Lemma py_gt_int (n c : Z) : py_gt (PInt n) c = Ok (bool_decide (c < n)).
Proof.
  unfold py_gt. rewrite cmp_int_of_int. simpl.
  destruct (Z.compare_spec n c); case_bool_decide; (done || lia).
Qed.

Lemma py_le_int (n c : Z) : py_le (PInt n) c = Ok (bool_decide (n ≤ c)).
Proof.
  unfold py_le. rewrite cmp_int_of_int. simpl.
  destruct (Z.compare_spec n c); case_bool_decide; (done || lia).
Qed.

Lemma py_eq_int (n m : Z) : py_eq (PInt n) (PInt m) = bool_decide (n = m).
Proof.
  simpl. rewrite !Z.mul_1_r.
  destruct (Z.compare_spec n m); case_bool_decide; (done || lia).
Qed.

Lemma py_le_bool (b : bool) (c : Z) :
  py_le (PBool b) c = Ok (bool_decide (Z.b2z b ≤ c)).
Proof.
  unfold py_le, cmp_int. simpl. rewrite !Z.mul_1_r.
  destruct (Z.compare_spec (Z.b2z b) c); case_bool_decide; (done || lia).
Qed.

(** Against zero, the exact comparison of a float agrees with the IEEE
    comparison of the Standard Library. *)
Lemma py_le_float_zero (f : spec_float) :
  py_le (PFloat f) 0 = Ok (SFleb f (S754_zero false)).
Proof.
  destruct f as [[] | [] | | s m e]; try done.
  unfold py_le, cmp_int, SFleb. simpl. rewrite Z.mul_0_l.
  assert (0 < 2 ^ (e - e `min` 0)) by (apply Z.pow_pos_nonneg; lia).
  destruct s.
  - assert (Z.neg m * 2 ^ (e - e `min` 0) < 0) as ->%Z.compare_lt_iff by nia.
    done.
  - assert (0 < Z.pos m * 2 ^ (e - e `min` 0)) as ->%Z.compare_gt_iff by nia.
    done.
Qed.

(** A comparison, and with it every range check, raises on a non-number. *)
Lemma cmp_int_raises (v : pyval) (c : Z) :
  num_of v = None → cmp_int v c = Raise TypeError.
Proof. unfold cmp_int. by intros ->. Qed.

(** ** validate_total_pairs *)

(** C6: on an integer [v], [validate_total_pairs] returns [v] unchanged,
    with an error exactly when [v < -1] or [v > 100], and with a warning
    exactly when there is no error and [v = 0] or [v > 10]. *)
Theorem validate_total_pairs_spec :
  ∀ v : Z, ∃ errors warnings,
    validate_total_pairs (PInt v) = Ok (errors, warnings, PInt v)
    ∧ (errors ≠ [] ↔ v < -1 ∨ v > 100)
    ∧ (warnings ≠ [] ↔ errors = [] ∧ (v = 0 ∨ v > 10)).
Proof.
  intros v. unfold validate_total_pairs.
  rewrite !py_lt_int, !py_gt_int, py_eq_int.
  unfold MIN_PAIRS_ERROR_THRESHOLD, MAX_PAIRS_ERROR_THRESHOLD,
    MAX_PAIRS_WARNING_THRESHOLD.
  repeat case_bool_decide; simpl; eexists _, _;
    (split; [reflexivity |]); intuition (done || lia).
Qed.

(** ** validate_inversion_time *)

(** C8: on a number, [validate_inversion_time] returns its argument
    unchanged and no warning, with an error exactly when the number is at
    most zero: [n ≤ 0] for an int, the IEEE test [f ≤ 0] for a float (false on
    a NaN), and [False] alone for a bool. *)
Theorem validate_inversion_time_spec :
  (∀ n : Z, ∃ errors,
      validate_inversion_time (PInt n) = Ok (errors, [], PInt n)
      ∧ (errors ≠ [] ↔ n ≤ 0))
  ∧ (∀ f : spec_float, ∃ errors,
      validate_inversion_time (PFloat f) = Ok (errors, [], PFloat f)
      ∧ (errors ≠ [] ↔ SFleb f (S754_zero false) = true))
  ∧ (∀ b : bool, ∃ errors,
      validate_inversion_time (PBool b) = Ok (errors, [], PBool b)
      ∧ (errors ≠ [] ↔ b = false)).
Proof.
  unfold validate_inversion_time, MIN_INVERSION_TIME_ERROR_THRESHOLD.
  split; [| split].
  - intros n. rewrite py_le_int. simpl.
    case_bool_decide; eexists; (split; [reflexivity |]); split;
      (done || lia).
  - intros f. rewrite py_le_float_zero. simpl.
    destruct (SFleb f (S754_zero false)); eexists;
      (split; [reflexivity |]); split; done.
  - intros b. rewrite py_le_bool. simpl.
    destruct b; simpl; eexists; (split; [reflexivity |]); split; done.
Qed.

(** ** validate_recommended_parameters *)

Lemma get_or_cases (data : gmap string pyval) (key : string) (dflt : pyval) :
  get_or data key dflt = dflt
  ∨ ∃ key', data !! key' = Some (get_or data key dflt).
Proof.
  unfold get_or. destruct (data !! key) eqn:E; simpl; [right | by left].
  by exists key.
Qed.

(** C9: [validate_recommended_parameters] never reports anything: both
    message lists come back empty for every record, and each entry of the
    values dict is a value taken from the record or one of the sentinels
    "Not provided" and "Not applicable". *)
Theorem validate_recommended_parameters_silent :
  ∀ data : gmap string pyval, ∃ values : gmap string pyval,
    validate_recommended_parameters data = ([], [], values)
    ∧ ∀ key v, values !! key = Some v →
        v = PStr "Not provided" ∨ v = PStr "Not applicable"
        ∨ ∃ key', data !! key' = Some v.
Proof.
  intros data. exists (validate_recommended_parameters data).2.
  split; [reflexivity |].
  set (P := λ (_ : string) (v : pyval),
         v = PStr "Not provided" ∨ v = PStr "Not applicable"
         ∨ ∃ key', data !! key' = Some v).
  assert (∀ key, P key (PStr "Not applicable")) as Hna by (right; by left).
  assert (∀ key key', P key (get_or data key' (PStr "Not provided"))) as Hget.
  { intros key key'. unfold P.
    destruct (get_or_cases data key' (PStr "Not provided")) as [-> | ?]; eauto. }
  change (map_Forall P (validate_recommended_parameters data).2).
  unfold validate_recommended_parameters.
  destruct (py_truthy (get data "VascularCrushing")),
    (py_truthy (get data "BackgroundSuppression"));
    repeat (apply map_Forall_insert_2; [by auto |]);
    apply map_Forall_empty.
Qed.

(** ** The condition evaluator *)

Lemma py_eq_None_l (v : pyval) : py_eq PNone v = true ↔ v = PNone.
Proof. destruct v; simpl; split; done. Qed.

Lemma py_in_spec (x : pyval) (l : list pyval) :
  py_in x l = true ↔ ∃ a, a ∈ l ∧ py_eq x a = true.
Proof.
  unfold py_in. rewrite existsb_exists.
  split; intros (a & Ha & Heq); exists a; by rewrite ?list_elem_of_In in *.
Qed.

Lemma get_absent (data : gmap string pyval) (key : string) :
  data !! key = None → get data key = PNone.
Proof. unfold get. by intros ->. Qed.

Lemma entries_hold_spec (data : gmap string pyval)
    (entries : list (string * pyval)) :
  JSONValidator.entries_hold data entries = true ↔
  ∀ key expected, (key, expected) ∈ entries →
    match expected with
    | PList accepted => ∃ a, a ∈ accepted ∧ py_eq (get data key) a = true
    | _ => py_eq (get data key) expected = true
    end.
Proof.
  induction entries as [| [k e] rest IH]; simpl.
  - split; [| done]. intros _ key expected Hin. by apply elem_of_nil in Hin.
  - assert (JSONValidator.entries_hold data ((k, e) :: rest) =
            match e with
            | PList accepted => py_in (get data k) accepted
            | _ => py_eq (get data k) e
            end && JSONValidator.entries_hold data rest) as Hstep.
    { simpl. destruct e; simpl;
        match goal with |- context [negb ?b] => by destruct b end. }
    simpl in Hstep. rewrite Hstep, andb_true_iff, IH. clear Hstep IH.
    split.
    + intros [Hhead Hrest] key expected [[= -> ->] | Hin]%elem_of_cons.
      * destruct e; try done. by apply py_in_spec.
      * by apply Hrest.
    + intros Hall. split.
      * specialize (Hall k e ltac:(by apply elem_of_cons; left)).
        destruct e; try done. by apply py_in_spec.
      * intros key expected Hin. apply Hall. apply elem_of_cons. by right.
Qed.

(** C10: a condition that is not a mapping, or that is the empty mapping,
    makes the rule apply, for every record. *)
Theorem should_apply_validation_unrecognized :
  ∀ (data : gmap string pyval) (condition : pyval),
    (∀ entries, condition = PDict entries → entries = []) →
    JSONValidator.should_apply_validation data condition = true.
Proof.
  intros data condition Hshape. unfold JSONValidator.should_apply_validation.
  destruct (py_eq condition (PStr "all")); [done |].
  destruct condition; try done.
  by rewrite (Hshape _ eq_refl).
Qed.

Lemma should_apply_validation_unrecognized_witness :
  JSONValidator.should_apply_validation
    {["ArterialSpinLabelingType" := PStr "PASL"]} (PList [PStr "PASL"]) = true
  ∧ JSONValidator.should_apply_validation ∅ (PDict []) = true.
Proof.
  split; apply should_apply_validation_unrecognized; intros entries H.
  - discriminate H.
  - by injection H as <-.
Defined.

(** C7, amended: a mapping condition holds exactly when every entry passes,
    by membership for a list of accepted values and by equality otherwise.
    A controlling field that is absent from the record is read as [None]:
    it matches the expected value [None] (or a list that holds [None]) and
    nothing else, so never [False], a number, a string or a container. *)
Theorem should_apply_validation_mapping :
  ∀ (data : gmap string pyval) (entries : list (string * pyval)),
    (JSONValidator.should_apply_validation data (PDict entries) = true ↔
     ∀ key expected, (key, expected) ∈ entries →
       match expected with
       | PList accepted => ∃ a, a ∈ accepted ∧ py_eq (get data key) a = true
       | _ => py_eq (get data key) expected = true
       end)
    ∧ (∀ key, data !! key = None →
         (∀ expected,
             py_eq (get data key) expected = true ↔ expected = PNone)
         ∧ (∀ accepted,
             py_in (get data key) accepted = true ↔ PNone ∈ accepted)).
Proof.
  intros data entries. split.
  - apply entries_hold_spec.
  - intros key Habsent. rewrite (get_absent _ _ Habsent). split.
    + apply py_eq_None_l.
    + intros accepted. rewrite py_in_spec. split.
      * intros (a & Hin & ->%py_eq_None_l). done.
      * intros Hin. by exists PNone.
Qed.

(** The claim as first stated fails: an absent controlling field does match
    the expected value [None]. *)
Lemma should_apply_validation_absent_matches_None :
  (∅ : gmap string pyval) !! "VascularCrushing" = None
  ∧ JSONValidator.should_apply_validation ∅
      (PDict [("VascularCrushing", PNone)]) = true.
Proof. split; reflexivity. Qed.

(** ** Errors and warnings of one field *)

(** Splits on the outcome of the next range check of the goal. *)
Ltac split_check :=
  match goal with
  | |- context [py_or ?a ?b] => destruct (py_or a b) as [[|] |]; simpl
  | |- context [py_le ?v ?c] => destruct (py_le v c) as [[|] |]; simpl
  end.

Ltac scalar_cases :=
  repeat split_check; intros Hret Herr; simplify_eq; done.

Lemma validate_total_pairs_exclusive v errors warnings x :
  validate_total_pairs v = Ok (errors, warnings, x) →
  errors ≠ [] → warnings = [].
Proof. unfold validate_total_pairs. scalar_cases. Qed.

Lemma validate_labeling_duration_exclusive v errors warnings x :
  validate_labeling_duration v = Ok (errors, warnings, x) →
  errors ≠ [] → warnings = [].
Proof. unfold validate_labeling_duration. scalar_cases. Qed.

Lemma validate_post_labeling_delay_exclusive v errors warnings x :
  validate_post_labeling_delay v = Ok (errors, warnings, x) →
  errors ≠ [] → warnings = [].
Proof. unfold validate_post_labeling_delay. scalar_cases. Qed.

Lemma validate_inversion_time_exclusive v errors warnings x :
  validate_inversion_time v = Ok (errors, warnings, x) →
  errors ≠ [] → warnings = [].
Proof. unfold validate_inversion_time. scalar_cases. Qed.

(** Each element adds at most one message to the two lists together. *)
Lemma voxel_loop_length sizes errors warnings errors' warnings' :
  voxel_loop sizes errors warnings = Ok (errors', warnings') →
  (length errors' + length warnings'
   ≤ length errors + length warnings + length sizes)%nat.
Proof.
  revert errors warnings.
  induction sizes as [| size rest IH]; intros errors warnings; simpl.
  - intros [= <- <-]. lia.
  - repeat split_check; try done; intros Hrest%IH;
      rewrite ?length_app in Hrest; simpl in Hrest; lia.
Qed.

Lemma voxel_loop_single size errors warnings :
  voxel_loop [size] [] [] = Ok (errors, warnings) →
  errors = [] ∨ warnings = [].
Proof. simpl. repeat split_check; intros [= <- <-]; auto. Qed.

(** C2, amended: for each scalar numeric field an error excludes a warning
    in the same pass.  For the numeric array field the exclusion holds
    element by element: an array that is not a list of three yields one
    error and no warning, and otherwise every element contributes an
    error, a warning or nothing, never two messages. *)
Theorem error_suppresses_warning :
  (∀ validator,
      validator ∈ [validate_total_pairs; validate_labeling_duration;
                   validate_post_labeling_delay; validate_inversion_time] →
      ∀ v errors warnings x,
        validator v = Ok (errors, warnings, x) →
        errors ≠ [] → warnings = [])
  ∧ (∀ v, (∀ sizes, v = PList sizes → length sizes ≠ 3%nat) →
        validate_voxel_size v =
        Ok (["Invalid 'AcquisitionVoxelSize' (should be a list of 3 numbers)"],
            [], v))
  ∧ (∀ sizes errors warnings x,
        validate_voxel_size (PList sizes) = Ok (errors, warnings, x) →
        (length errors + length warnings ≤ 3)%nat)
  ∧ (∀ size errors warnings,
        voxel_loop [size] [] [] = Ok (errors, warnings) →
        errors = [] ∨ warnings = []).
Proof.
  split; [| split; [| split]].
  - intros validator Hin v errors warnings x.
    repeat (apply elem_of_cons in Hin as [-> | Hin]);
      [ apply validate_total_pairs_exclusive
      | apply validate_labeling_duration_exclusive
      | apply validate_post_labeling_delay_exclusive
      | apply validate_inversion_time_exclusive
      | by apply elem_of_nil in Hin ].
  - intros v Hshape. unfold validate_voxel_size.
    destruct v as [| | | | | sizes |]; try done.
    specialize (Hshape sizes eq_refl).
    by destruct (Nat.eqb_spec (length sizes) 3).
  - intros sizes errors warnings x. unfold validate_voxel_size.
    destruct (Nat.eqb_spec (length sizes) 3) as [Hlen | Hlen]; simpl.
    + destruct (voxel_loop sizes [] []) as [[e w] |] eqn:Hloop; simpl;
        [| done].
      intros [= <- <- <-]. apply voxel_loop_length in Hloop.
      simpl in Hloop. lia.
    + intros [= <- <- <-]. simpl. lia.
  - apply voxel_loop_single.
Qed.

Lemma error_suppresses_warning_witness :
  (validate_total_pairs (PInt 101) =
     Ok (["'TotalAcquiredPairs' out of valid range (-1-100)"], [], PInt 101)
   ∧ ["'TotalAcquiredPairs' out of valid range (-1-100)"] ≠ []
   ∧ @nil string = [])
  ∧ validate_voxel_size (PInt 3) =
      Ok (["Invalid 'AcquisitionVoxelSize' (should be a list of 3 numbers)"],
          [], PInt 3).
Proof.
  destruct error_suppresses_warning as (Hscalar & Hshape & _).
  split.
  - split; [reflexivity |]. split; [done |].
    apply (Hscalar validate_total_pairs) with
      (v := PInt 101) (x := PInt 101)
      (errors := ["'TotalAcquiredPairs' out of valid range (-1-100)"]).
    + apply elem_of_cons. by left.
    + reflexivity.
    + done.
  - apply Hshape. intros sizes H. discriminate H.
Defined.

(** The claim as first stated fails on the array field: one element of the
    voxel size is out of range and another one is in the warning band, so
    the same pass reports an error and a warning for the field. *)
Lemma validate_voxel_size_error_and_warning :
  validate_voxel_size (PList [PInt 200; PInt 0; PInt 3]) =
  Ok (["'AcquisitionVoxelSize' out of valid range (0-100)"],
      ["'AcquisitionVoxelSize' is in a warning range (0-1 or 10-100)"],
      PList [PInt 200; PInt 0; PInt 3]).
Proof. reflexivity. Qed.

(** ** verify_PCASL_required_parameters *)

Lemma py_eq_str_r (v : pyval) (s : string) :
  py_eq v (PStr s) = true ↔ v = PStr s.
Proof.
  destruct v; simpl; try (split; done).
  rewrite String.eqb_eq. split; congruence.
Qed.

Lemma get_is_str (data : gmap string pyval) (key s : string) :
  py_eq (get data key) (PStr s) = true ↔ data !! key = Some (PStr s).
Proof.
  rewrite py_eq_str_r. unfold get.
  destruct (data !! key); simpl; split; congruence.
Qed.

Lemma pcasl_demanded_spec (data : gmap string pyval) :
  pcasl_demanded data = true ↔
  data !! "ArterialSpinLabelingType" = Some (PStr "PCASL")
  ∨ data !! "ArterialSpinType" = Some (PStr "(P)CASL").
Proof. unfold pcasl_demanded. by rewrite orb_true_iff, !get_is_str. Qed.

Lemma validate_labeling_duration_value v errors warnings x :
  validate_labeling_duration v = Ok (errors, warnings, x) → x = v.
Proof.
  unfold validate_labeling_duration.
  repeat split_check; intros; by simplify_eq.
Qed.

Lemma validate_post_labeling_delay_value v errors warnings x :
  validate_post_labeling_delay v = Ok (errors, warnings, x) → x = v.
Proof.
  unfold validate_post_labeling_delay.
  repeat split_check; intros; by simplify_eq.
Qed.

Lemma py_or_number (v : pyval) (c1 c2 : Z) :
  is_Some (num_of v) → ∃ b, py_or (py_lt v c1) (py_gt v c2) = Ok b.
Proof.
  intros [x Hx]. unfold py_or, py_lt, py_gt, cmp_int. rewrite Hx. simpl.
  destruct (num_compare x (NFin c1 0)) as [[] |]; eauto.
Qed.

Lemma validate_labeling_duration_number v :
  is_Some (num_of v) →
  ∃ errors warnings,
    validate_labeling_duration v = Ok (errors, warnings, v).
Proof.
  intros Hnum. unfold validate_labeling_duration.
  destruct (py_or_number v MIN_LABELING_DURATION_ERROR
              MAX_LABELING_DURATION_ERROR Hnum) as [[] ->]; simpl; eauto.
  destruct (py_or_number v MIN_LABELING_DURATION_WARNING
              MAX_LABELING_DURATION_WARNING Hnum) as [[] ->]; simpl; eauto.
Qed.

Lemma validate_post_labeling_delay_number v :
  is_Some (num_of v) →
  ∃ errors warnings,
    validate_post_labeling_delay v = Ok (errors, warnings, v).
Proof.
  intros Hnum. unfold validate_post_labeling_delay.
  destruct (py_or_number v MIN_POST_LABELING_DELAY_ERROR
              MAX_POST_LABELING_DELAY_ERROR Hnum) as [[] ->]; simpl; eauto.
  destruct (py_or_number v MIN_POST_LABELING_DELAY_WARNING
              MAX_POST_LABELING_DELAY_WARNING Hnum) as [[] ->]; simpl; eauto.
Qed.

Lemma None_or_not (v : pyval) : v = PNone ∨ v ≠ PNone.
Proof. destruct v; auto. Qed.

Lemma match_not_None {A : Type} (v : pyval) (a b : A) :
  v ≠ PNone →
  match v with
  | PNone => a
  | PBool _ | PInt _ | PFloat _ | PStr _ | PList _ | PDict _ => b
  end = b.
Proof. by destruct v. Qed.

(** Resolves the [is None] test on the field read next in the goal. *)
Ltac split_is_None key :=
  let Hv := fresh "Hv" in
  match goal with
  | data : gmap string pyval |- _ =>
      destruct (None_or_not (default PNone (data !! key))) as [Hv | Hv];
      [ rewrite Hv; simpl
      | rewrite (match_not_None _ _ _ Hv); simpl ]
  end.

Lemma comparisons_return (v : pyval) :
  is_Some (num_of v) →
  ∀ c, (∃ b, py_lt v c = Ok b) ∧ (∃ b, py_gt v c = Ok b).
Proof.
  intros [x Hx] c. unfold py_lt, py_gt, cmp_int. rewrite Hx. simpl.
  split; eexists; reflexivity.
Qed.

Lemma py_lt_int_true (n c : Z) : py_lt (PInt n) c = Ok true ↔ n < c.
Proof.
  rewrite py_lt_int. case_bool_decide; split; (done || lia || congruence).
Qed.

Lemma py_gt_int_true (n c : Z) : py_gt (PInt n) c = Ok true ↔ n > c.
Proof.
  rewrite py_gt_int. case_bool_decide; split; (done || lia || congruence).
Qed.

(** What the range validator of [LabelingDuration] reports when it returns:
    the error of the hard range or nothing, the warning of the narrow band or
    nothing, each decided by the comparisons of the source. *)
Lemma validate_labeling_duration_report raw e w x :
  validate_labeling_duration raw = Ok (e, w, x) →
  x = raw
  ∧ (e = ["'LabelingDuration' out of valid range (0-100)"] ∨ e = [])
  ∧ (w = ["'LabelingDuration' is less than 1 or greater than 10, which may be unusual"]
     ∨ w = [])
  ∧ (e ≠ [] ↔ py_lt raw 0 = Ok true ∨ py_gt raw 100 = Ok true)
  ∧ (w ≠ [] ↔
     e = [] ∧ (py_lt raw 1 = Ok true ∨ py_gt raw 10 = Ok true)).
Proof.
  destruct (num_of raw) as [n |] eqn:Hn.
  - pose proof (comparisons_return raw (mk_is_Some _ _ Hn)) as Hcmp.
    destruct (Hcmp 0) as [[lo Hlo] _], (Hcmp 100) as [_ [hi Hhi]],
      (Hcmp 1) as [[lo' Hlo'] _], (Hcmp 10) as [_ [hi' Hhi']].
    unfold validate_labeling_duration, MIN_LABELING_DURATION_ERROR,
      MAX_LABELING_DURATION_ERROR, MIN_LABELING_DURATION_WARNING,
      MAX_LABELING_DURATION_WARNING.
    rewrite Hlo, Hhi, Hlo', Hhi'.
    destruct lo, hi, lo', hi'; simpl; intros [= <- <- <-];
      repeat split; auto; intuition congruence.
  - unfold validate_labeling_duration, py_or, py_lt, cmp_int.
    by rewrite Hn.
Qed.

Lemma validate_post_labeling_delay_report raw e w x :
  validate_post_labeling_delay raw = Ok (e, w, x) →
  x = raw
  ∧ (e = ["'PostLabelingDelay' out of valid range (0-100)"] ∨ e = [])
  ∧ (w = ["'PostLabelingDelay' is less than 1 or greater than 10, which may be unusual"]
     ∨ w = [])
  ∧ (e ≠ [] ↔ py_lt raw 0 = Ok true ∨ py_gt raw 100 = Ok true)
  ∧ (w ≠ [] ↔
     e = [] ∧ (py_lt raw 1 = Ok true ∨ py_gt raw 10 = Ok true)).
Proof.
  destruct (num_of raw) as [n |] eqn:Hn.
  - pose proof (comparisons_return raw (mk_is_Some _ _ Hn)) as Hcmp.
    destruct (Hcmp 0) as [[lo Hlo] _], (Hcmp 100) as [_ [hi Hhi]],
      (Hcmp 1) as [[lo' Hlo'] _], (Hcmp 10) as [_ [hi' Hhi']].
    unfold validate_post_labeling_delay, MIN_POST_LABELING_DELAY_ERROR,
      MAX_POST_LABELING_DELAY_ERROR, MIN_POST_LABELING_DELAY_WARNING,
      MAX_POST_LABELING_DELAY_WARNING.
    rewrite Hlo, Hhi, Hlo', Hhi'.
    destruct lo, hi, lo', hi'; simpl; intros [= <- <- <-];
      repeat split; auto; intuition congruence.
  - unfold validate_post_labeling_delay, py_or, py_lt, cmp_int.
    by rewrite Hn.
Qed.

(** Closes one case of the theorem below, from what is known of the two
    fields read and from the reports of their validators. *)
Ltac pcasl_field_case :=
  repeat match goal with
    | |- _ ∧ _ => split
    | |- ∀ _, _ => intro
    | H : _ ∨ _ |- _ => destruct H
    | H : ?data !! ?k = _, Hv : context [?data !! ?k] |- _ =>
        rewrite H in Hv; simpl in Hv
    | H : ?v = PInt _, E : context [?v] |- _ => rewrite H in E
    end;
  try done;
  repeat match goal with
    | H : ?data !! ?k = Some _ |- context [?data !! ?k] => rewrite H; simpl
    end;
  try (rewrite ?lookup_insert_ne by done;
       by rewrite ?lookup_insert_eq, ?lookup_empty);
  try first
    [ match goal with
      | E : validate_labeling_duration _ = Ok _ |- _ =>
          apply validate_labeling_duration_report
            in E as (? & ? & ? & Herr & Hwarn);
          try rewrite py_lt_int_true, py_gt_int_true in Herr;
          try rewrite py_lt_int_true, py_gt_int_true in Hwarn;
          done
      end
    | match goal with
      | E : validate_post_labeling_delay _ = Ok _ |- _ =>
          apply validate_post_labeling_delay_report
            in E as (? & ? & ? & Herr & Hwarn);
          try rewrite py_lt_int_true, py_gt_int_true in Herr;
          try rewrite py_lt_int_true, py_gt_int_true in Hwarn;
          done
      end ].

(** C5: the two PCASL fields are demanded exactly when
    [ArterialSpinLabelingType] is "PCASL" or [ArterialSpinType] is "(P)CASL".
    Otherwise the function returns no message and "Not applicable" for both.
    When they are demanded, the errors and the warnings are those of
    [LabelingDuration] followed by those of [PostLabelingDelay], and for each
    of the two: a field that is absent (or held as null) costs exactly its
    missing-parameter error and leaves no value; a present one is stored and
    range-validated, with the range error exactly when it is below 0 or above
    100 and the warning exactly when there is no error and it is below 1 or
    above 10, and nothing else.  The function returns whenever the fields
    that are present hold numbers. *)
Theorem verify_PCASL_required_parameters_spec :
  ∀ data : gmap string pyval,
    let demanded :=
      data !! "ArterialSpinLabelingType" = Some (PStr "PCASL")
      ∨ data !! "ArterialSpinType" = Some (PStr "(P)CASL") in
    (¬ demanded →
     ∃ values,
       verify_PCASL_required_parameters data = Ok ([], [], values)
       ∧ values !! "LabelingDuration" = Some (PStr "Not applicable")
       ∧ values !! "PostLabelingDelay" = Some (PStr "Not applicable"))
    ∧ (demanded →
       ∀ errors warnings values,
         verify_PCASL_required_parameters data
           = Ok (errors, warnings, values) →
         ∃ e1 w1 e2 w2,
           errors = e1 ++ e2 ∧ warnings = w1 ++ w2
           ∧ ((data !! "LabelingDuration" = None
               ∨ data !! "LabelingDuration" = Some PNone) →
              e1 = ["Required labeling duration parameter for pcasl not provided"]
              ∧ w1 = [] ∧ values !! "LabelingDuration" = None)
           ∧ (∀ raw, data !! "LabelingDuration" = Some raw → raw ≠ PNone →
              validate_labeling_duration raw = Ok (e1, w1, raw)
              ∧ values !! "LabelingDuration" = Some raw
              ∧ (e1 = ["'LabelingDuration' out of valid range (0-100)"]
                 ∨ e1 = [])
              ∧ (w1 = ["'LabelingDuration' is less than 1 or greater than 10, which may be unusual"]
                 ∨ w1 = [])
              ∧ (e1 ≠ [] ↔ py_lt raw 0 = Ok true ∨ py_gt raw 100 = Ok true)
              ∧ (w1 ≠ [] ↔
                 e1 = [] ∧ (py_lt raw 1 = Ok true ∨ py_gt raw 10 = Ok true))
              ∧ ∀ n : Z, raw = PInt n →
                  (e1 ≠ [] ↔ n < 0 ∨ n > 100)
                  ∧ (w1 ≠ [] ↔ e1 = [] ∧ (n < 1 ∨ n > 10)))
           ∧ ((data !! "PostLabelingDelay" = None
               ∨ data !! "PostLabelingDelay" = Some PNone) →
              e2 = ["Required post labeling delay parameter for pcasl not provided"]
              ∧ w2 = [] ∧ values !! "PostLabelingDelay" = None)
           ∧ (∀ raw, data !! "PostLabelingDelay" = Some raw → raw ≠ PNone →
              validate_post_labeling_delay raw = Ok (e2, w2, raw)
              ∧ values !! "PostLabelingDelay" = Some raw
              ∧ (e2 = ["'PostLabelingDelay' out of valid range (0-100)"]
                 ∨ e2 = [])
              ∧ (w2 = ["'PostLabelingDelay' is less than 1 or greater than 10, which may be unusual"]
                 ∨ w2 = [])
              ∧ (e2 ≠ [] ↔ py_lt raw 0 = Ok true ∨ py_gt raw 100 = Ok true)
              ∧ (w2 ≠ [] ↔
                 e2 = [] ∧ (py_lt raw 1 = Ok true ∨ py_gt raw 10 = Ok true))
              ∧ ∀ n : Z, raw = PInt n →
                  (e2 ≠ [] ↔ n < 0 ∨ n > 100)
                  ∧ (w2 ≠ [] ↔ e2 = [] ∧ (n < 1 ∨ n > 10))))
    ∧ (demanded →
       (∀ raw, data !! "LabelingDuration" = Some raw →
               raw = PNone ∨ is_Some (num_of raw)) →
       (∀ raw, data !! "PostLabelingDelay" = Some raw →
               raw = PNone ∨ is_Some (num_of raw)) →
       ∃ errors warnings values,
         verify_PCASL_required_parameters data
           = Ok (errors, warnings, values)).
Proof.
  intros data demanded. split; [| split].
  - intros Hno. unfold verify_PCASL_required_parameters.
    destruct (pcasl_demanded data) eqn:E.
    { by apply pcasl_demanded_spec in E. }
    eexists. split; [reflexivity |]. by simplify_map_eq.
  - intros Hd%pcasl_demanded_spec errors warnings values.
    unfold verify_PCASL_required_parameters, get_or. rewrite Hd.
    split_is_None "LabelingDuration";
      [| destruct (validate_labeling_duration _)
           as [[[e1 w1] x1] |] eqn:E1; simpl; [| done];
         apply validate_labeling_duration_value in E1 as Hx1; subst x1 ];
      (split_is_None "PostLabelingDelay";
       [| destruct (validate_post_labeling_delay _)
            as [[[e2 w2] x2] |] eqn:E2; simpl; [| done];
          apply validate_post_labeling_delay_value in E2 as Hx2; subst x2 ]);
      intros [= <- <- <-].
    + exists ["Required labeling duration parameter for pcasl not provided"],
        [],
        ["Required post labeling delay parameter for pcasl not provided"],
        [].
      split; [done |]. split; [done |]. pcasl_field_case.
    + exists ["Required labeling duration parameter for pcasl not provided"],
        [], e2, w2.
      split; [done |]. split; [done |].
      pcasl_field_case.
    + exists e1, w1,
        ["Required post labeling delay parameter for pcasl not provided"],
        [].
      split; [done |]. split; [by rewrite app_nil_r |].
      pcasl_field_case.
    + exists e1, w1, e2, w2.
      split; [done |]. split; [done |]. pcasl_field_case.
  - intros Hd%pcasl_demanded_spec Hld Hpld.
    unfold verify_PCASL_required_parameters, get_or. rewrite Hd.
    split_is_None "LabelingDuration".
    + split_is_None "PostLabelingDelay"; [by eauto |].
      destruct (data !! "PostLabelingDelay") as [pld |] eqn:Epld; [| done].
      simpl in *.
      destruct (Hpld pld eq_refl) as [-> | Hnum]; [done |].
      destruct (validate_post_labeling_delay_number _ Hnum)
        as (e2 & w2 & ->). simpl. eauto.
    + destruct (data !! "LabelingDuration") as [ld |] eqn:Eld; [| done].
      simpl in *.
      destruct (Hld ld eq_refl) as [-> | Hnum1]; [done |].
      destruct (validate_labeling_duration_number _ Hnum1)
        as (e1 & w1 & ->). simpl.
      split_is_None "PostLabelingDelay"; [by eauto |].
      destruct (data !! "PostLabelingDelay") as [pld |] eqn:Epld; [| done].
      simpl in *.
      destruct (Hpld pld eq_refl) as [-> | Hnum2]; [done |].
      destruct (validate_post_labeling_delay_number _ Hnum2)
        as (e2 & w2 & ->). simpl. eauto.
Qed.

(** ** One pass of the engine over a schema *)

Section ApplySchema.
Variable condition_schema : gmap string pyval.
Variable data : gmap string pyval.
Variable is_required : bool.

Abbreviation applies field :=
  (JSONValidator.should_apply_validation data
     (default (PStr "all") (condition_schema !! field))).
Abbreviation step :=
  (JSONValidator.apply_field condition_schema data is_required).
Abbreviation pass schema out :=
  (JSONValidator.apply_schema schema condition_schema data out is_required).

(** What a pass leaves under an applicable field that the record lacks. *)
Abbreviation absent_result field out :=
  (if is_required
   then (Some (PStr "Missing required parameter"),
         out.1.2 !! field, out.2 !! field)
   else (out.1.1 !! field, out.1.2 !! field,
         Some (PStr "Recommended to be specified"))).

Lemma apply_field_other out g validator field :
  g ≠ field → at_field field (step out (g, validator)) = at_field field out.
Proof.
  intros Hne. destruct out as [[errors warnings] values].
  unfold JSONValidator.apply_field, at_field.
  destruct (applies g); [| done].
  destruct (data !! g) as [raw |].
  - destruct (validate validator raw) as [error warning].
    destruct (py_truthy error), (py_truthy warning); simpl;
      by rewrite ?lookup_insert_ne.
  - destruct is_required; simpl; by rewrite ?lookup_insert_ne.
Qed.

Lemma apply_field_skip out field validator :
  applies field = false → step out (field, validator) = out.
Proof.
  intros Hcond. destruct out as [[errors warnings] values].
  unfold JSONValidator.apply_field. by rewrite Hcond.
Qed.

Lemma apply_field_absent out field validator :
  applies field = true → data !! field = None →
  at_field field (step out (field, validator)) = absent_result field out.
Proof.
  intros Hcond Habsent. destruct out as [[errors warnings] values].
  unfold JSONValidator.apply_field, at_field. rewrite Hcond, Habsent.
  destruct is_required; simpl; by rewrite lookup_insert_eq.
Qed.

Lemma apply_field_present out field validator raw :
  applies field = true → data !! field = Some raw →
  at_field field (step out (field, validator)) =
  (if py_truthy (validate validator raw).1
   then Some (validate validator raw).1 else out.1.1 !! field,
   if py_truthy (validate validator raw).2
   then Some (validate validator raw).2 else out.1.2 !! field,
   Some raw).
Proof.
  intros Hcond Hpresent. destruct out as [[errors warnings] values].
  unfold JSONValidator.apply_field, at_field. rewrite Hcond, Hpresent.
  destruct (validate validator raw) as [error warning]. simpl.
  destruct (py_truthy error), (py_truthy warning); simpl;
    by rewrite ?lookup_insert_eq.
Qed.

Lemma apply_schema_snoc schema entry out :
  pass (schema ++ [entry]) out = step (pass schema out) entry.
Proof. unfold JSONValidator.apply_schema. by rewrite fold_left_app. Qed.

(** A pass does not touch a field that its schema does not list. *)
Lemma apply_schema_not_listed schema out field :
  field ∉ schema.*1 → at_field field (pass schema out) = at_field field out.
Proof.
  induction schema as [| [g validator] schema IH] using rev_ind; [done |].
  rewrite fmap_app, not_elem_of_app. simpl. intros [Hrest Hg].
  rewrite apply_schema_snoc, apply_field_other; [by apply IH |].
  intros ->. apply Hg, elem_of_cons. by left.
Qed.

(** Nor a field whose condition is false. *)
Lemma apply_schema_skip schema out field :
  applies field = false → at_field field (pass schema out) = at_field field out.
Proof.
  intros Hcond.
  induction schema as [| [g validator] schema IH] using rev_ind; [done |].
  rewrite apply_schema_snoc. destruct (decide (g = field)) as [-> | Hne].
  - by rewrite apply_field_skip.
  - by rewrite apply_field_other.
Qed.

Lemma apply_schema_absent schema out field :
  field ∈ schema.*1 → applies field = true → data !! field = None →
  at_field field (pass schema out) = absent_result field out.
Proof.
  intros Hin Hcond Habsent. revert Hin.
  induction schema as [| [g validator] schema IH] using rev_ind.
  { intros Hin. by apply elem_of_nil in Hin. }
  intros Hin. rewrite apply_schema_snoc.
  destruct (decide (g = field)) as [-> | Hne].
  - rewrite apply_field_absent by done.
    destruct (decide (field ∈ schema.*1)) as [Hrest | Hrest].
    + specialize (IH Hrest). unfold at_field in IH. revert IH.
      destruct is_required; congruence.
    + pose proof (apply_schema_not_listed schema out field Hrest) as Hsame.
      unfold at_field in Hsame. destruct is_required; congruence.
  - rewrite apply_field_other by done. apply IH.
    rewrite fmap_app, elem_of_app in Hin. destruct Hin as [Hin | Hin]; [done |].
    simpl in Hin. apply elem_of_cons in Hin as [-> | Hin]; [done |].
    by apply elem_of_nil in Hin.
Qed.

(** A listed, applicable and present field has its raw value recorded. *)
Lemma apply_schema_present_value schema out field raw :
  field ∈ schema.*1 → applies field = true → data !! field = Some raw →
  (pass schema out).2 !! field = Some raw.
Proof.
  intros Hin Hcond Hpresent. revert Hin.
  induction schema as [| [g validator] schema IH] using rev_ind.
  { intros Hin. by apply elem_of_nil in Hin. }
  intros Hin. rewrite apply_schema_snoc.
  destruct (decide (g = field)) as [-> | Hne].
  - pose proof (apply_field_present (pass schema out) field validator raw
                  Hcond Hpresent) as Hstep.
    unfold at_field in Hstep. congruence.
  - pose proof (apply_field_other (pass schema out) g validator field Hne)
      as Hstep.
    unfold at_field in Hstep. injection Hstep as _ _ ->. apply IH.
    rewrite fmap_app, elem_of_app in Hin. destruct Hin as [Hin | Hin]; [done |].
    simpl in Hin. apply elem_of_cons in Hin as [-> | Hin]; [done |].
    by apply elem_of_nil in Hin.
Qed.

(** With the keys of a dict being distinct, the validator listed for a present
    field decides alone what the pass stores under it. *)
Lemma apply_schema_present schema out field validator raw :
  NoDup schema.*1 → (field, validator) ∈ schema →
  applies field = true → data !! field = Some raw →
  at_field field (pass schema out) =
  (if py_truthy (validate validator raw).1
   then Some (validate validator raw).1 else out.1.1 !! field,
   if py_truthy (validate validator raw).2
   then Some (validate validator raw).2 else out.1.2 !! field,
   Some raw).
Proof.
  intros Hdup Hin Hcond Hpresent. revert Hdup Hin.
  induction schema as [| [g w] schema IH] using rev_ind.
  { intros _ Hin. by apply elem_of_nil in Hin. }
  rewrite fmap_app, NoDup_app. simpl. intros (Hdup & Hfresh & _) Hin.
  rewrite apply_schema_snoc.
  apply elem_of_app in Hin as [Hin | Hin].
  - assert (g ≠ field) as Hne.
    { intros ->. apply (Hfresh field).
      + apply list_elem_of_fmap. by exists (field, validator).
      + apply elem_of_cons. by left. }
    rewrite apply_field_other by done. by apply IH.
  - apply elem_of_cons in Hin as [[= <- <-] | Hin];
      [| by apply elem_of_nil in Hin].
    rewrite apply_field_present with (raw := raw) by done.
    assert (field ∉ schema.*1) as Hrest.
    { intros Hrest. apply (Hfresh field Hrest), elem_of_cons. by left. }
    pose proof (apply_schema_not_listed schema out field Hrest) as Hsame.
    unfold at_field in Hsame. by injection Hsame as -> -> _.
Qed.

End ApplySchema.

(** ** The two passes of validate *)

Section Validate.
Variable self : JSONValidator.t.
Variable data : gmap string pyval.

Abbreviation required_keys := (JSONValidator.required_validator_schema self).*1.
Abbreviation recommended_keys :=
  (JSONValidator.recommended_validator_schema self).*1.
Abbreviation after_required :=
  (JSONValidator.apply_schema (JSONValidator.required_validator_schema self)
     (JSONValidator.required_condition_schema self) data (∅, ∅, ∅) true).

Lemma validate_passes :
  JSONValidator.validate self data =
  JSONValidator.apply_schema (JSONValidator.recommended_validator_schema self)
    (JSONValidator.recommended_condition_schema self) data after_required
    false.
Proof. reflexivity. Qed.

Lemma at_field_start field :
  at_field field ((∅, ∅, ∅) : outputs) = (None, None, None).
Proof. unfold at_field. simpl. by rewrite !lookup_empty. Qed.

(** The recommended pass leaves the error of an absent field alone. *)
Lemma validate_absent_error field :
  data !! field = None →
  (JSONValidator.validate self data).1.1 !! field
  = after_required.1.1 !! field.
Proof.
  intros Habsent. rewrite validate_passes.
  destruct (recommended_applies self data field) eqn:Hcond.
  - destruct (decide (field ∈ recommended_keys)) as [Hin | Hout].
    + pose proof (apply_schema_absent _ _ false _ after_required _
                    Hin Hcond Habsent) as H.
      unfold at_field in H. congruence.
    + pose proof (apply_schema_not_listed
                    (JSONValidator.recommended_condition_schema self) data
                    false _ after_required _ Hout) as H.
      unfold at_field in H. congruence.
  - pose proof (apply_schema_skip _ _ false
                  (JSONValidator.recommended_validator_schema self)
                  after_required _ Hcond) as H.
    unfold at_field in H. congruence.
Qed.

(** Unless it lists the field and the condition holds, the recommended pass
    leaves the value of the field alone. *)
Lemma validate_value_kept field :
  ¬ (field ∈ recommended_keys ∧ recommended_applies self data field = true) →
  (JSONValidator.validate self data).2 !! field = after_required.2 !! field.
Proof.
  intros Hnot. rewrite validate_passes.
  destruct (recommended_applies self data field) eqn:Hcond.
  - assert (field ∉ recommended_keys) as Hout by (intros Hin; by apply Hnot).
    pose proof (apply_schema_not_listed
                  (JSONValidator.recommended_condition_schema self) data
                  false _ after_required _ Hout) as H.
    unfold at_field in H. congruence.
  - pose proof (apply_schema_skip _ _ false
                  (JSONValidator.recommended_validator_schema self)
                  after_required _ Hcond) as H.
    unfold at_field in H. congruence.
Qed.

(** The required pass records a value only for a field that it lists, whose
    condition holds and which the record has; the value is the raw one. *)
Lemma after_required_value field v :
  after_required.2 !! field = Some v →
  data !! field = Some v ∧ field ∈ required_keys
  ∧ required_applies self data field = true.
Proof.
  destruct (decide (field ∈ required_keys)) as [Hin | Hout].
  - destruct (required_applies self data field) eqn:Hcond.
    + destruct (data !! field) as [raw |] eqn:Hdata.
      * rewrite (apply_schema_present_value _ _ true _ _ _ raw Hin Hcond Hdata).
        by intros [= ->].
      * pose proof (apply_schema_absent _ _ true _ (∅, ∅, ∅) _
                      Hin Hcond Hdata) as H.
        unfold at_field in H. injection H as _ _ ->. simpl.
        by rewrite lookup_empty.
    + pose proof (apply_schema_skip _ _ true
                    (JSONValidator.required_validator_schema self)
                    (∅, ∅, ∅) _ Hcond) as H.
      unfold at_field in H. injection H as _ _ ->. simpl.
      by rewrite lookup_empty.
  - pose proof (apply_schema_not_listed
                  (JSONValidator.required_condition_schema self) data
                  true _ (∅, ∅, ∅) _ Hout) as H.
    unfold at_field in H. injection H as _ _ ->. simpl.
    by rewrite lookup_empty.
Qed.

Lemma validate_required_absent field :
  field ∈ required_keys → required_applies self data field = true →
  data !! field = None →
  (JSONValidator.validate self data).1.1 !! field
  = Some (PStr "Missing required parameter")
  ∧ (field ∉ recommended_keys →
     (JSONValidator.validate self data).2 !! field = None).
Proof.
  intros Hin Hcond Habsent.
  pose proof (apply_schema_absent _ _ true _ (∅, ∅, ∅) _ Hin Hcond Habsent)
    as H.
  unfold at_field in H. injection H as Herr _ Hval. split.
  - by rewrite validate_absent_error.
  - intros Hout. rewrite validate_value_kept by (intros [? _]; done).
    rewrite Hval. simpl. by rewrite lookup_empty.
Qed.

Lemma validate_present_value field raw :
  (field ∈ required_keys ∧ required_applies self data field = true)
  ∨ (field ∈ recommended_keys ∧ recommended_applies self data field = true) →
  data !! field = Some raw →
  (JSONValidator.validate self data).2 !! field = Some raw.
Proof.
  intros Hlisted Hpresent.
  destruct (decide (field ∈ recommended_keys
                    ∧ recommended_applies self data field = true))
    as [[Hin Hcond] | Hnot].
  - rewrite validate_passes.
    by apply apply_schema_present_value.
  - rewrite validate_value_kept by done.
    destruct Hlisted as [[Hin Hcond] | ?]; [| done].
    by apply apply_schema_present_value.
Qed.

Lemma validate_recommended_absent field :
  field ∈ recommended_keys → recommended_applies self data field = true →
  data !! field = None →
  (JSONValidator.validate self data).2 !! field
  = Some (PStr "Recommended to be specified").
Proof.
  intros Hin Hcond Habsent. rewrite validate_passes.
  pose proof (apply_schema_absent _ _ false _ after_required _
                Hin Hcond Habsent) as H.
  unfold at_field in H. by injection H as _ _ ->.
Qed.

Lemma validate_recommended_inapplicable field :
  recommended_applies self data field = false →
  (∀ v, (JSONValidator.validate self data).2 !! field = Some v →
        data !! field = Some v)
  ∧ (field ∉ required_keys →
     (JSONValidator.validate self data).2 !! field = None).
Proof.
  intros Hcond.
  rewrite validate_value_kept by (intros [_ ?]; congruence). split.
  - intros v Hv. by apply after_required_value in Hv as [? _].
  - intros Hout. destruct (after_required.2 !! field) as [v |] eqn:Hv; [| done].
    by apply after_required_value in Hv as (_ & ? & _).
Qed.

(** For a present field of the required schema alone, the listed validator
    decides whether the field also enters [errors]. *)
Lemma validate_required_present_error field validator raw :
  NoDup required_keys →
  (field, validator) ∈ JSONValidator.required_validator_schema self →
  field ∉ recommended_keys →
  required_applies self data field = true → data !! field = Some raw →
  (JSONValidator.validate self data).1.1 !! field
  = if py_truthy (validate validator raw).1
    then Some (validate validator raw).1 else None.
Proof.
  intros Hdup Hin Hout Hcond Hpresent. rewrite validate_passes.
  pose proof (apply_schema_not_listed
                (JSONValidator.recommended_condition_schema self) data
                false _ after_required _ Hout) as Hrec.
  pose proof (apply_schema_present _ _ true _ (∅, ∅, ∅) _ _ raw
                Hdup Hin Hcond Hpresent) as Hreq.
  unfold at_field in Hrec, Hreq.
  injection Hrec as -> _ _. injection Hreq as -> _ _. simpl.
  by rewrite lookup_empty.
Qed.

End Validate.

(** ** The engine's treatment of recommended fields *)

(** C1, amended: for a field of the recommended schema whose condition is
    false the engine writes nothing, neither "Not applicable" (a sentinel it
    does not have) nor "Recommended to be specified": whatever [values] holds
    under the field is the record's own value, put there by the required
    pass, and nothing at all when the required schema does not list the
    field.  When the condition is true and the record lacks the field,
    [values] holds "Recommended to be specified". *)
Theorem recommended_field_value :
  ∀ (self : JSONValidator.t) (data : gmap string pyval) (field : string),
    field ∈ (JSONValidator.recommended_validator_schema self).*1 →
    let values := (JSONValidator.validate self data).2 in
    (recommended_applies self data field = false →
     (∀ v, values !! field = Some v → data !! field = Some v)
     ∧ (field ∉ (JSONValidator.required_validator_schema self).*1 →
        values !! field = None))
    ∧ (recommended_applies self data field = true → data !! field = None →
       values !! field = Some (PStr "Recommended to be specified")).
Proof.
  intros self data field Hin values. split.
  - apply validate_recommended_inapplicable.
  - intros Hcond Habsent. by apply validate_recommended_absent.
Qed.

Lemma recommended_field_value_witness :
  let self := JSONValidator.main_validator (λ _, boolean_validator) in
  let data : gmap string pyval :=
    {["ArterialSpinLabelingType" := PStr "PASL"]} in
  (JSONValidator.validate self data).2 !! "PCASLType" = None
  ∧ (JSONValidator.validate self data).2 !! "PASLType"
    = Some (PStr "Recommended to be specified").
Proof.
  intros self data. split.
  - assert ("PCASLType"
            ∈ (JSONValidator.recommended_validator_schema self).*1) as Hin
      by (simpl; repeat constructor).
    destruct (recommended_field_value self data "PCASLType" Hin)
      as [Hfalse _].
    apply Hfalse; [reflexivity |].
    apply (bool_decide_unpack _). reflexivity.
  - assert ("PASLType"
            ∈ (JSONValidator.recommended_validator_schema self).*1) as Hin
      by (simpl; repeat constructor).
    destruct (recommended_field_value self data "PASLType" Hin)
      as [_ Htrue].
    apply Htrue; reflexivity.
Defined.

(** The claim as first stated fails: with the tables of [main], whatever the
    validators, a PASL record leaves the inapplicable field [PCASLType] out of
    [values], where the claim expects "Not applicable". *)
Lemma inapplicable_recommended_field_left_out :
  "PCASLType" ∈ JSONValidator.main_recommended_fields
  ∧ JSONValidator.should_apply_validation
      {["ArterialSpinLabelingType" := PStr "PASL"]}
      (JSONValidator.labeling_is "PCASL") = false
  ∧ ∀ validator_of : string → Validator,
      (JSONValidator.validate (JSONValidator.main_validator validator_of)
         {["ArterialSpinLabelingType" := PStr "PASL"]}).2 !! "PCASLType"
      = None.
Proof.
  split; [repeat constructor |]. split; [reflexivity |].
  intros validator_of.
  apply validate_recommended_inapplicable; [reflexivity |].
  simpl. apply (bool_decide_unpack _). reflexivity.
Qed.

(** ** Missing required parameters *)

Lemma validate_total_pairs_value v errors warnings x :
  validate_total_pairs v = Ok (errors, warnings, x) → x = v.
Proof.
  unfold validate_total_pairs. repeat split_check; intros; by simplify_eq.
Qed.

Lemma validate_voxel_size_value v errors warnings x :
  validate_voxel_size v = Ok (errors, warnings, x) → x = v.
Proof.
  unfold validate_voxel_size. destruct v as [| | | | | sizes |];
    try (intros; by simplify_eq).
  destruct (negb (length sizes =? 3)%nat); [intros; by simplify_eq |].
  destruct (voxel_loop sizes [] []) as [[e w] |]; simpl;
    intros; by simplify_eq.
Qed.

Lemma validate_labeling_duration_errors v errors warnings x :
  validate_labeling_duration v = Ok (errors, warnings, x) →
  errors = [] ∨ errors = ["'LabelingDuration' out of valid range (0-100)"].
Proof.
  unfold validate_labeling_duration.
  repeat split_check; intros; simplify_eq; auto.
Qed.

Lemma validate_post_labeling_delay_errors v errors warnings x :
  validate_post_labeling_delay v = Ok (errors, warnings, x) →
  errors = [] ∨ errors = ["'PostLabelingDelay' out of valid range (0-100)"].
Proof.
  unfold validate_post_labeling_delay.
  repeat split_check; intros; simplify_eq; auto.
Qed.

(** C3, amended.  Engine: a field of the required schema whose condition
    holds and which the record lacks has the missing-parameter message under
    its name in [errors], and no entry in [values] as long as the recommended
    schema does not list it too.  Domain rules: when the PCASL fields are
    demanded, an absent [LabelingDuration] or [PostLabelingDelay] produces
    its missing-parameter error exactly once and no entry in [values]; the
    general fields are always entered in [values], an absent one under the
    default that [verify_general_parameters] substitutes (the background
    suppression as "Yes" or "No" by truthiness, so "No" when absent), and an
    absent field other than [TotalAcquiredPairs] makes its validator report
    exactly one error. *)
Theorem missing_required_parameter :
  ∀ (self : JSONValidator.t) (data : gmap string pyval)
    (py_str : pyval → string),
    (∀ field,
        field ∈ (JSONValidator.required_validator_schema self).*1 →
        required_applies self data field = true →
        data !! field = None →
        (JSONValidator.validate self data).1.1 !! field
        = Some (PStr "Missing required parameter")
        ∧ (field ∉ (JSONValidator.recommended_validator_schema self).*1 →
           (JSONValidator.validate self data).2 !! field = None))
    ∧ (pcasl_demanded data = true →
       ∀ errors warnings values,
         verify_PCASL_required_parameters data
           = Ok (errors, warnings, values) →
         (data !! "LabelingDuration" = None →
          length (filter
            (λ m, m = "Required labeling duration parameter for pcasl not provided")
            errors) = 1%nat
          ∧ values !! "LabelingDuration" = None)
         ∧ (data !! "PostLabelingDelay" = None →
            length (filter
              (λ m, m = "Required post labeling delay parameter for pcasl not provided")
              errors) = 1%nat
            ∧ values !! "PostLabelingDelay" = None))
    ∧ (∀ errors warnings values,
         verify_general_parameters py_str data
           = Ok (errors, warnings, values) →
         (values !! "ArterialSpinLabelingType"
            = Some (get_or data "ArterialSpinLabelingType" (PStr ""))
          ∧ values !! "BackgroundSuppression"
            = Some (if py_truthy (get data "BackgroundSuppression")
                    then PStr "Yes" else PStr "No")
          ∧ (data !! "BackgroundSuppression" = None →
             values !! "BackgroundSuppression" = Some (PStr "No"))
          ∧ values !! "MethodForM0bEstimation"
            = Some (get_or data "M0Type" (PStr ""))
          ∧ values !! "TotalAcquiredPairs"
            = Some (get_or data "TotalAcquiredPairs" (PInt (-1)))
          ∧ values !! "AcquisitionVoxelSize"
            = Some (get_or data "AcquisitionVoxelSize" (PList [])))
         ∧ ∃ e_pairs e_voxel w_pairs w_voxel,
             validate_total_pairs
               (get_or data "TotalAcquiredPairs" (PInt (-1)))
               = Ok (e_pairs, w_pairs,
                     get_or data "TotalAcquiredPairs" (PInt (-1)))
             ∧ validate_voxel_size
                 (get_or data "AcquisitionVoxelSize" (PList []))
                 = Ok (e_voxel, w_voxel,
                       get_or data "AcquisitionVoxelSize" (PList []))
             ∧ errors
               = (validate_asl_type py_str
                    (get_or data "ArterialSpinLabelingType" (PStr ""))).1.1
                 ++ (validate_background_suppression
                       (get data "BackgroundSuppression")).1.1
                 ++ (validate_m0b_method
                       (get_or data "M0Type" (PStr ""))).1.1
                 ++ e_pairs ++ e_voxel
             ∧ (data !! "ArterialSpinLabelingType" = None →
                length (validate_asl_type py_str
                  (get_or data "ArterialSpinLabelingType" (PStr ""))).1.1
                = 1%nat)
             ∧ (data !! "BackgroundSuppression" = None →
                length (validate_background_suppression
                  (get data "BackgroundSuppression")).1.1 = 1%nat)
             ∧ (data !! "M0Type" = None →
                length (validate_m0b_method
                  (get_or data "M0Type" (PStr ""))).1.1 = 1%nat)
             ∧ (data !! "AcquisitionVoxelSize" = None →
                length e_voxel = 1%nat)).
Proof.
  intros self data py_str. split; [| split].
  - intros field. apply validate_required_absent.
  - intros Hd errors warnings values.
    unfold verify_PCASL_required_parameters, get_or. rewrite Hd.
    split_is_None "LabelingDuration";
      [| destruct (validate_labeling_duration _)
           as [[[e1 w1] x1] |] eqn:E1; simpl; [| done];
         apply validate_labeling_duration_errors in E1 as He1 ];
      (split_is_None "PostLabelingDelay";
       [| destruct (validate_post_labeling_delay _)
            as [[[e2 w2] x2] |] eqn:E2; simpl; [| done];
          apply validate_post_labeling_delay_errors in E2 as He2 ]);
      intros [= <- <- <-];
      repeat match goal with
        | |- _ ∧ _ => split
        | |- _ → _ => intros
        | H : ?data !! ?k = _, Hv : context [?data !! ?k] |- _ =>
            rewrite H in Hv; simpl in Hv
        | H : _ ∨ _ |- _ => destruct H as [-> | ->]
        end;
      done.
  - intros errors warnings values. unfold verify_general_parameters.
    destruct (validate_total_pairs _) as [[[e4 w4] x4] |] eqn:E4; simpl;
      [| done].
    destruct (validate_voxel_size _) as [[[e5 w5] x5] |] eqn:E5; simpl;
      [| done].
    apply validate_total_pairs_value in E4 as Hx4.
    apply validate_voxel_size_value in E5 as Hx5. subst x4 x5.
    intros [= <- <- <-]. split.
    + repeat split; try (by simplify_map_eq).
      intros Habsent. rewrite !lookup_insert_ne, lookup_insert_eq by done.
      unfold get. by rewrite Habsent.
    + exists e4, e5, w4, w5. repeat split; try done.
      * by rewrite <- !app_assoc.
      * unfold get_or. by intros ->.
      * unfold get. by intros ->.
      * unfold get_or. by intros ->.
      * unfold get_or in E5. intros Habsent. rewrite Habsent in E5.
        by injection E5 as <- _.
Qed.

Lemma missing_required_parameter_witness :
  let self := JSONValidator.main_validator (λ _, boolean_validator) in
  let data : gmap string pyval :=
    {["ArterialSpinLabelingType" := PStr "PCASL"]} in
  (JSONValidator.validate self data).1.1 !! "LabelingDuration"
  = Some (PStr "Missing required parameter")
  ∧ (JSONValidator.validate self data).2 !! "LabelingDuration" = None
  ∧ (<["PostLabelingDelay" := PInt 2]> ∅ : gmap string pyval)
      !! "LabelingDuration" = None.
Proof.
  intros self data.
  destruct (missing_required_parameter self data (λ _, ""))
    as (Hengine & _ & _).
  destruct (missing_required_parameter self
              (<["PostLabelingDelay" := PInt 2]> data) (λ _, ""))
    as (_ & Hpcasl & _).
  destruct (Hengine "LabelingDuration") as [Herr Hval].
  { simpl. repeat constructor. }
  { reflexivity. }
  { reflexivity. }
  split; [exact Herr |]. split.
  - apply Hval. simpl. apply (bool_decide_unpack _). reflexivity.
  - eapply (Hpcasl eq_refl
              ["Required labeling duration parameter for pcasl not provided"]
              []); reflexivity.
Defined.

(** The claim as first stated fails in the domain-rule variant: a record that
    lacks [TotalAcquiredPairs] and is complete otherwise gets no error at
    all, and [values] has an entry for the field, the default [-1]. *)
Lemma absent_total_pairs_is_silent :
  let data : gmap string pyval :=
    <["ArterialSpinLabelingType" := PStr "PCASL"]>
      (<["BackgroundSuppression" := PBool true]>
         (<["M0Type" := PStr "Separate"]>
            {["AcquisitionVoxelSize" := PList [PInt 3; PInt 3; PInt 3]]})) in
  data !! "TotalAcquiredPairs" = None
  ∧ ∀ py_str : pyval → string,
      ∃ values,
        verify_general_parameters py_str data = Ok ([], [], values)
        ∧ values !! "TotalAcquiredPairs" = Some (PInt (-1)).
Proof.
  intros data. split; [reflexivity |].
  intros py_str. eexists. split; reflexivity.
Qed.

(** ** The invariant of the engine's result *)

(** A pass never removes an entry of [errors]. *)
Lemma apply_schema_keeps_error (condition_schema data : gmap string pyval)
    (is_required : bool) (schema : list (string * Validator))
    (out : outputs) (field : string) :
  is_Some (out.1.1 !! field) →
  is_Some ((JSONValidator.apply_schema schema condition_schema data out
              is_required).1.1 !! field).
Proof.
  induction schema as [| [g validator] schema IH] using rev_ind; [done |].
  intros Hout. specialize (IH Hout). rewrite apply_schema_snoc.
  destruct (JSONValidator.apply_schema schema condition_schema data out
              is_required) as [[errors warnings] values].
  unfold JSONValidator.apply_field. simpl in *.
  destruct (JSONValidator.should_apply_validation _ _); [| done].
  destruct (data !! g) as [raw |].
  - destruct (validate validator raw) as [error warning].
    destruct (py_truthy error), (py_truthy warning); simpl; try done;
      rewrite lookup_insert; by case_decide.
  - destruct is_required; simpl; [| done].
    rewrite lookup_insert. by case_decide.
Qed.

(** Whatever the recommended schema lists, the error that the validator of
    a present required field reports keeps the field in [errors]. *)
Lemma validate_required_error_kept (self : JSONValidator.t)
    (data : gmap string pyval) (field : string) (validator : Validator)
    (raw : pyval) :
  NoDup (JSONValidator.required_validator_schema self).*1 →
  (field, validator) ∈ JSONValidator.required_validator_schema self →
  required_applies self data field = true → data !! field = Some raw →
  py_truthy (validate validator raw).1 = true →
  is_Some ((JSONValidator.validate self data).1.1 !! field).
Proof.
  intros Hdup Hin Hcond Hpresent Htruthy. rewrite validate_passes.
  apply apply_schema_keeps_error.
  pose proof (apply_schema_present _ _ true _ (∅, ∅, ∅) _ _ raw
                Hdup Hin Hcond Hpresent) as Hreq.
  unfold at_field in Hreq. injection Hreq as -> _ _.
  by rewrite Htruthy.
Qed.

(** The entry in [errors] of a present required field, whatever the
    recommended schema does with the field: the recommended pass leaves the
    outcome of the required validator alone unless it lists the field with a
    condition that holds, and then the error of its own validator, if any,
    replaces it. *)
Lemma validate_required_present_errors (self : JSONValidator.t)
    (data : gmap string pyval) (field : string) (validator : Validator)
    (raw : pyval) :
  NoDup (JSONValidator.required_validator_schema self).*1 →
  (field, validator) ∈ JSONValidator.required_validator_schema self →
  required_applies self data field = true → data !! field = Some raw →
  (¬ (field ∈ (JSONValidator.recommended_validator_schema self).*1
      ∧ recommended_applies self data field = true) →
   (JSONValidator.validate self data).1.1 !! field
   = if py_truthy (validate validator raw).1
     then Some (validate validator raw).1 else None)
  ∧ (∀ validator',
       NoDup (JSONValidator.recommended_validator_schema self).*1 →
       (field, validator') ∈ JSONValidator.recommended_validator_schema self →
       recommended_applies self data field = true →
       (JSONValidator.validate self data).1.1 !! field
       = if py_truthy (validate validator' raw).1
         then Some (validate validator' raw).1
         else if py_truthy (validate validator raw).1
              then Some (validate validator raw).1 else None).
Proof.
  intros Hdup Hin Hcond Hpresent.
  pose proof (apply_schema_present _ _ true _ (∅, ∅, ∅) _ _ raw
                Hdup Hin Hcond Hpresent) as Hreq.
  unfold at_field in Hreq. injection Hreq as Hreq _ _.
  simpl in Hreq. rewrite lookup_empty in Hreq.
  rewrite validate_passes. split.
  - intros Hnot.
    destruct (recommended_applies self data field) eqn:Hrec.
    + assert (field ∉ (JSONValidator.recommended_validator_schema self).*1)
        as Hout by (intros Hlisted; by apply Hnot).
      pose proof (apply_schema_not_listed
                    (JSONValidator.recommended_condition_schema self) data
                    false _
                    (JSONValidator.apply_schema
                       (JSONValidator.required_validator_schema self)
                       (JSONValidator.required_condition_schema self) data
                       (∅, ∅, ∅) true) _ Hout) as H.
      unfold at_field in H. injection H as -> _ _. exact Hreq.
    + pose proof (apply_schema_skip _ _ false
                    (JSONValidator.recommended_validator_schema self)
                    (JSONValidator.apply_schema
                       (JSONValidator.required_validator_schema self)
                       (JSONValidator.required_condition_schema self) data
                       (∅, ∅, ∅) true) _ Hrec) as H.
      unfold at_field in H. injection H as -> _ _. exact Hreq.
  - intros validator' Hdup' Hin' Hrec.
    pose proof (apply_schema_present _ _ false _
                  (JSONValidator.apply_schema
                     (JSONValidator.required_validator_schema self)
                     (JSONValidator.required_condition_schema self) data
                     (∅, ∅, ∅) true) _ _ raw Hdup' Hin' Hrec Hpresent) as H.
    unfold at_field in H. injection H as -> _ _. by rewrite Hreq.
Qed.

(** C4, amended.  A field of the required schema whose condition holds: when
    the record lacks it, it is in [errors] with the missing-parameter message
    and, unless the recommended schema lists it too, not in [values]; when the
    record has it, it is in [values] with its raw value, and it is in
    [errors] as well exactly when a validator that ran on it reports an
    error: its validator of the required schema, and that of the recommended
    schema when that schema lists the field too with a condition that holds,
    whose error is then the one entered.  A field of the recommended schema
    is in [values] when its condition holds, with its raw value or with
    "Recommended to be specified"; when its condition is false the
    recommended pass does not enter it. *)
Theorem validate_result_invariant :
  ∀ (self : JSONValidator.t) (data : gmap string pyval) (field : string),
    let errors := (JSONValidator.validate self data).1.1 in
    let values := (JSONValidator.validate self data).2 in
    (field ∈ (JSONValidator.required_validator_schema self).*1 →
     required_applies self data field = true →
     (data !! field = None →
      errors !! field = Some (PStr "Missing required parameter")
      ∧ (field ∉ (JSONValidator.recommended_validator_schema self).*1 →
         values !! field = None))
     ∧ (∀ raw, data !! field = Some raw →
        values !! field = Some raw
        ∧ ∀ validator,
            NoDup (JSONValidator.required_validator_schema self).*1 →
            (field, validator) ∈ JSONValidator.required_validator_schema self →
            (py_truthy (validate validator raw).1 = true →
             is_Some (errors !! field))
            ∧ (¬ (field ∈ (JSONValidator.recommended_validator_schema self).*1
                  ∧ recommended_applies self data field = true) →
               errors !! field
               = if py_truthy (validate validator raw).1
                 then Some (validate validator raw).1 else None)
            ∧ (∀ validator',
                 NoDup (JSONValidator.recommended_validator_schema self).*1 →
                 (field, validator')
                 ∈ JSONValidator.recommended_validator_schema self →
                 recommended_applies self data field = true →
                 errors !! field
                 = if py_truthy (validate validator' raw).1
                   then Some (validate validator' raw).1
                   else if py_truthy (validate validator raw).1
                        then Some (validate validator raw).1 else None)))
    ∧ (field ∈ (JSONValidator.recommended_validator_schema self).*1 →
       (recommended_applies self data field = true →
        values !! field
        = Some (default (PStr "Recommended to be specified") (data !! field)))
       ∧ (recommended_applies self data field = false →
          field ∉ (JSONValidator.required_validator_schema self).*1 →
          values !! field = None)).
Proof.
  intros self data field errors values. split.
  - intros Hin Hcond. split.
    + by apply validate_required_absent.
    + intros raw Hpresent. split.
      * apply validate_present_value; auto.
      * intros validator Hdup Hlisted. split.
        -- intros Htruthy.
           by apply (validate_required_error_kept self data field validator
                       raw).
        -- by apply validate_required_present_errors.
  - intros Hin. split.
    + intros Hcond. destruct (data !! field) as [raw |] eqn:Hdata; simpl.
      * apply validate_present_value; auto.
      * by apply validate_recommended_absent.
    + intros Hcond Hout. by apply validate_recommended_inapplicable.
Qed.

Lemma validate_result_invariant_witness :
  let self := JSONValidator.main_validator (λ _, boolean_validator) in
  let data : gmap string pyval :=
    {["ArterialSpinLabelingType" := PStr "CASL"]} in
  let both :=
    {| JSONValidator.required_validator_schema :=
         [("BackgroundSuppression", {| validate := λ _, (PNone, PNone) |})];
       JSONValidator.required_condition_schema := ∅;
       JSONValidator.recommended_validator_schema :=
         [("BackgroundSuppression", boolean_validator)];
       JSONValidator.recommended_condition_schema := ∅ |} in
  ((JSONValidator.validate self data).1.1 !! "PostLabelingDelay"
   = Some (PStr "Missing required parameter")
   ∧ (JSONValidator.validate self data).2 !! "PostLabelingDelay" = None)
  ∧ ((JSONValidator.validate self data).2 !! "ArterialSpinLabelingType"
     = Some (PStr "CASL")
     ∧ (JSONValidator.validate self data).1.1 !! "ArterialSpinLabelingType"
       = Some (PStr "Invalid value (should be True or False)"))
  ∧ (JSONValidator.validate self data).2 !! "CASLType"
    = Some (PStr "Recommended to be specified")
  ∧ (JSONValidator.validate self data).2 !! "PASLType" = None
  ∧ (JSONValidator.validate both {["BackgroundSuppression" := PStr "yes"]}).1.1
      !! "BackgroundSuppression"
    = Some (PStr "Invalid value (should be True or False)").
Proof.
  intros self data both.
  destruct (validate_result_invariant self data "PostLabelingDelay")
    as [Hmissing _].
  destruct (validate_result_invariant self data "ArterialSpinLabelingType")
    as [Hpresent _].
  destruct (validate_result_invariant self data "CASLType") as [_ Happlies].
  destruct (validate_result_invariant self data "PASLType") as [_ Hskipped].
  destruct (validate_result_invariant both
              {["BackgroundSuppression" := PStr "yes"]}
              "BackgroundSuppression") as [Hboth _].
  split; [| split; [| split; [| split]]].
  - destruct Hmissing as [Hmissing _];
      [simpl; repeat constructor | reflexivity |].
    destruct (Hmissing eq_refl) as [Herr Hval]. split; [exact Herr |].
    apply Hval. simpl. apply (bool_decide_unpack _). reflexivity.
  - destruct Hpresent as [_ Hpresent];
      [simpl; repeat constructor | reflexivity |].
    destruct (Hpresent (PStr "CASL") eq_refl) as [Hval Herr].
    split; [exact Hval |].
    destruct (Herr boolean_validator) as (_ & Hexact & _).
    + simpl. apply (bool_decide_unpack _). reflexivity.
    + simpl. repeat constructor.
    + assert ("ArterialSpinLabelingType"
              ∉ (JSONValidator.recommended_validator_schema self).*1) as Hout
        by (simpl; apply (bool_decide_unpack _); reflexivity).
      apply Hexact. intros [Hin _]. exact (Hout Hin).
  - destruct Happlies as [Happlies _]; [simpl; repeat constructor |].
    exact (Happlies eq_refl).
  - destruct Hskipped as [_ Hskipped]; [simpl; repeat constructor |].
    apply Hskipped; [reflexivity |].
    simpl. apply (bool_decide_unpack _). reflexivity.
  - destruct Hboth as [_ Hboth];
      [simpl; repeat constructor | reflexivity |].
    destruct (Hboth (PStr "yes") eq_refl) as [_ Herr].
    destruct (Herr {| validate := λ _, (PNone, PNone) |}) as (_ & _ & Hsecond).
    + simpl. apply NoDup_singleton.
    + simpl. repeat constructor.
    + apply (Hsecond boolean_validator).
      * simpl. apply NoDup_singleton.
      * simpl. repeat constructor.
      * reflexivity.
Defined.

(** The claim as first stated fails on both counts.  A required field that
    is present and rejected by its validator is in [errors] and in [values]
    at once; and a recommended field whose condition is false is not in
    [values]. *)
Lemma validate_result_not_exclusive :
  let self :=
    {| JSONValidator.required_validator_schema :=
         [("BackgroundSuppression", boolean_validator)];
       JSONValidator.required_condition_schema :=
         {["BackgroundSuppression" := PStr "all"]};
       JSONValidator.recommended_validator_schema :=
         [("PASLType", boolean_validator)];
       JSONValidator.recommended_condition_schema :=
         {["PASLType" := JSONValidator.labeling_is "PASL"]} |} in
  let data : gmap string pyval :=
    {["BackgroundSuppression" := PStr "yes"]} in
  (required_applies self data "BackgroundSuppression" = true
   ∧ (JSONValidator.validate self data).1.1 !! "BackgroundSuppression"
     = Some (PStr "Invalid value (should be True or False)")
   ∧ (JSONValidator.validate self data).2 !! "BackgroundSuppression"
     = Some (PStr "yes"))
  ∧ (recommended_applies self data "PASLType" = false
     ∧ (JSONValidator.validate self data).2 !! "PASLType" = None).
Proof. intros self data. repeat split; reflexivity. Qed.

(** ** Instances of the PCASL rule *)

Lemma verify_PCASL_required_parameters_witness :
  let data : gmap string pyval :=
    <["ArterialSpinLabelingType" := PStr "PCASL"]>
      (<["LabelingDuration" := PInt 120]> {["PostLabelingDelay" := PNone]}) in
  verify_PCASL_required_parameters data
  = Ok (["'LabelingDuration' out of valid range (0-100)";
         "Required post labeling delay parameter for pcasl not provided"],
        [], {["LabelingDuration" := PInt 120]})
  ∧ (∃ e1 w1 e2 w2,
        ["'LabelingDuration' out of valid range (0-100)";
         "Required post labeling delay parameter for pcasl not provided"]
        = e1 ++ e2
        ∧ @nil string = w1 ++ w2
        ∧ (e1 ≠ [] ↔ 120 < 0 ∨ 120 > 100)
        ∧ e2 = ["Required post labeling delay parameter for pcasl not provided"]
        ∧ w2 = [])
  ∧ ∃ values,
      verify_PCASL_required_parameters
        {["ArterialSpinLabelingType" := PStr "PASL"]}
      = Ok ([], [], values)
      ∧ values !! "LabelingDuration" = Some (PStr "Not applicable")
      ∧ values !! "PostLabelingDelay" = Some (PStr "Not applicable").
Proof.
  intros data.
  destruct (verify_PCASL_required_parameters_spec data)
    as (_ & Hdemanded & _).
  destruct (verify_PCASL_required_parameters_spec
              {["ArterialSpinLabelingType" := PStr "PASL"]})
    as (Hother & _ & _).
  split; [reflexivity |]. split.
  - destruct (Hdemanded (or_introl eq_refl) _ _ _ eq_refl)
      as (e1 & w1 & e2 & w2 & Herrors & Hwarnings & _ & Hduration
          & Hdelay & _).
    exists e1, w1, e2, w2.
    split; [exact Herrors |]. split; [exact Hwarnings |].
    destruct (Hduration (PInt 120) eq_refl) as (_ & _ & _ & _ & _ & _ & Hint);
      [discriminate |].
    destruct (Hdelay (or_intror eq_refl)) as (He2 & Hw2 & _).
    split; [exact (proj1 (Hint 120 eq_refl)) |]. by split.
  - apply Hother. intros [H | H]; discriminate H.
Defined.

(** ** Instances of the condition evaluator and of the recommended values *)

Lemma should_apply_validation_mapping_witness :
  let data : gmap string pyval :=
    {["ArterialSpinLabelingType" := PStr "CASL"]} in
  JSONValidator.should_apply_validation data JSONValidator.PCASL_or_CASL
  = true
  ∧ ¬ py_eq (get data "VascularCrushing") (PBool false) = true.
Proof.
  intros data.
  destruct (should_apply_validation_mapping data
              [("ArterialSpinLabelingType", PList [PStr "PCASL"; PStr "CASL"])])
    as [Hentries Habsent].
  split.
  - apply Hentries. intros key expected Hin.
    apply elem_of_cons in Hin as [[= -> ->] | Hin];
      [| by apply elem_of_nil in Hin].
    exists (PStr "CASL"). split; [repeat constructor | reflexivity].
  - destruct (Habsent "VascularCrushing" eq_refl) as [Heq _].
    intros Hmatch. apply Heq in Hmatch. discriminate Hmatch.
Defined.

Lemma validate_recommended_parameters_silent_witness :
  validate_recommended_parameters {["BackgroundSuppression" := PBool true]}
  = ([], [],
     (validate_recommended_parameters
        {["BackgroundSuppression" := PBool true]}).2)
  ∧ (PStr "Not provided" = PStr "Not provided"
     ∨ PStr "Not provided" = PStr "Not applicable"
     ∨ ∃ key',
         ({["BackgroundSuppression" := PBool true]} : gmap string pyval)
           !! key' = Some (PStr "Not provided")).
Proof.
  destruct (validate_recommended_parameters_silent
              {["BackgroundSuppression" := PBool true]})
    as (values & Hrun & Hvalues).
  split; [reflexivity |].
  apply (Hvalues "ShimVolume").
  injection Hrun as <-. reflexivity.
Defined.

(** ** The scenarios of the specification, run on the domain rules *)

Example scenario_complete_record (py_str : pyval → string) :
  (∃ values,
      verify_general_parameters py_str scenario_record = Ok ([], [], values))
  ∧ ∃ values,
      verify_PCASL_required_parameters scenario_record = Ok ([], [], values)
      ∧ values !! "LabelingDuration" = Some (PFloat float_1_8)
      ∧ values !! "PostLabelingDelay" = Some (PFloat float_1_8).
Proof.
  split; eexists; [reflexivity |].
  split; [reflexivity |]. split; reflexivity.
Qed.

Example scenario_zero_pairs (py_str : pyval → string) :
  ∃ values,
    verify_general_parameters py_str
      (<["TotalAcquiredPairs" := PInt 0]> scenario_record)
    = Ok ([],
          ["'TotalAcquiredPairs' is 0 or greater than 10, which may be unusual"],
          values).
Proof. eexists. reflexivity. Qed.

Example scenario_unknown_type (py_str : pyval → string) :
  ∃ message,
    validate_asl_type py_str (PStr "XASL") = ([message], [], PStr "XASL").
Proof. eexists. reflexivity. Qed.

Example scenario_PASL_record :
  ∃ values,
    verify_PCASL_required_parameters
      {["ArterialSpinLabelingType" := PStr "PASL"]} = Ok ([], [], values)
    ∧ values !! "LabelingDuration" = Some (PStr "Not applicable")
    ∧ values !! "PostLabelingDelay" = Some (PStr "Not applicable").
Proof. eexists. split; [reflexivity |]. split; reflexivity. Qed.

Example scenario_small_voxel :
  validate_voxel_size (PList [PFloat float_0_5; PInt 3; PInt 3])
  = Ok ([], ["'AcquisitionVoxelSize' is in a warning range (0-1 or 10-100)"],
        PList [PFloat float_0_5; PInt 3; PInt 3]).
Proof. reflexivity. Qed.

(** * Further properties of the domain rule functions *)

(** ** Range checks on integers *)

(** X1: on an integer [v], [validate_labeling_duration] and
    [validate_post_labeling_delay] return [v] unchanged, with an error
    exactly when [v < 0] or [v > 100], and with a warning exactly when there
    is no error and [v < 1] or [v > 10] (so the int 0 is accepted with a
    warning). *)
Theorem labeling_checks_on_int :
  ∀ v : Z,
    (∃ errors warnings,
        validate_labeling_duration (PInt v) = Ok (errors, warnings, PInt v)
        ∧ (errors ≠ [] ↔ v < 0 ∨ v > 100)
        ∧ (warnings ≠ [] ↔ errors = [] ∧ (v < 1 ∨ v > 10)))
    ∧ (∃ errors warnings,
        validate_post_labeling_delay (PInt v) = Ok (errors, warnings, PInt v)
        ∧ (errors ≠ [] ↔ v < 0 ∨ v > 100)
        ∧ (warnings ≠ [] ↔ errors = [] ∧ (v < 1 ∨ v > 10))).
Proof.
  intros v. split.
  - unfold validate_labeling_duration.
    rewrite !py_lt_int, !py_gt_int.
    unfold MIN_LABELING_DURATION_ERROR, MAX_LABELING_DURATION_ERROR,
      MIN_LABELING_DURATION_WARNING, MAX_LABELING_DURATION_WARNING.
    repeat case_bool_decide; simpl; eexists _, _;
      (split; [reflexivity |]); intuition (done || lia).
  - unfold validate_post_labeling_delay.
    rewrite !py_lt_int, !py_gt_int.
    unfold MIN_POST_LABELING_DELAY_ERROR, MAX_POST_LABELING_DELAY_ERROR,
      MIN_POST_LABELING_DELAY_WARNING, MAX_POST_LABELING_DELAY_WARNING.
    repeat case_bool_decide; simpl; eexists _, _;
      (split; [reflexivity |]); intuition (done || lia).
Qed.

Lemma voxel_loop_cons size rest errors warnings :
  voxel_loop (size :: rest) errors warnings =
  out_of_range ← py_or (py_lt size VOXEL_SIZE_MIN_ERROR_THRESHOLD)
                       (py_gt size VOXEL_SIZE_MAX_ERROR_THRESHOLD);
  if out_of_range : bool then
    voxel_loop rest
      (errors ++ ["'AcquisitionVoxelSize' out of valid range (0-100)"])
      warnings
  else
    unusual ← py_or (py_lt size VOXEL_SIZE_MIN_WARNING_THRESHOLD)
                    (py_gt size VOXEL_SIZE_MAX_WARNING_THRESHOLD);
    if unusual : bool then
      voxel_loop rest errors
        (warnings ++
           ["'AcquisitionVoxelSize' is in a warning range (0-1 or 10-100)"])
    else voxel_loop rest errors warnings.
Proof. reflexivity. Qed.

Lemma voxel_loop_ints (sizes : list Z) (errors warnings : list string) :
  voxel_loop (PInt <$> sizes) errors warnings =
  Ok (errors ++
        repeat "'AcquisitionVoxelSize' out of valid range (0-100)"
          (length (filter (λ n, n < 0 ∨ 100 < n) sizes)),
      warnings ++
        repeat "'AcquisitionVoxelSize' is in a warning range (0-1 or 10-100)"
          (length (filter (λ n, 0 ≤ n ≤ 100 ∧ (n < 1 ∨ 10 < n)) sizes))).
Proof.
  revert errors warnings.
  induction sizes as [| n sizes IH]; intros errors warnings.
  - simpl. by rewrite !app_nil_r.
  - rewrite fmap_cons, voxel_loop_cons, !py_lt_int, !py_gt_int.
    unfold VOXEL_SIZE_MIN_ERROR_THRESHOLD, VOXEL_SIZE_MAX_ERROR_THRESHOLD,
      VOXEL_SIZE_MIN_WARNING_THRESHOLD, VOXEL_SIZE_MAX_WARNING_THRESHOLD.
    rewrite !filter_cons.
    repeat case_bool_decide; simpl; rewrite IH;
      repeat case_decide; try lia; simpl;
      by rewrite <- ?app_assoc.
Qed.

(** X2: on a list of three integers [validate_voxel_size] reports one range
    error per element outside [0, 100] and one warning per element inside
    that range but outside [1, 10], and returns the list unchanged. *)
Theorem validate_voxel_size_on_ints :
  ∀ sizes : list Z,
    length sizes = 3%nat →
    validate_voxel_size (PList (PInt <$> sizes)) =
    Ok (repeat "'AcquisitionVoxelSize' out of valid range (0-100)"
          (length (filter (λ n, n < 0 ∨ 100 < n) sizes)),
        repeat "'AcquisitionVoxelSize' is in a warning range (0-1 or 10-100)"
          (length (filter (λ n, 0 ≤ n ≤ 100 ∧ (n < 1 ∨ 10 < n)) sizes)),
        PList (PInt <$> sizes)).
Proof.
  intros sizes Hlen. unfold validate_voxel_size.
  rewrite length_fmap, Hlen. simpl. by rewrite voxel_loop_ints.
Qed.

Lemma validate_voxel_size_on_ints_witness :
  validate_voxel_size (PList (PInt <$> [-2; 0; 250])) =
  Ok (repeat "'AcquisitionVoxelSize' out of valid range (0-100)" 2,
      repeat "'AcquisitionVoxelSize' is in a warning range (0-1 or 10-100)" 1,
      PList (PInt <$> [-2; 0; 250])).
Proof. apply (validate_voxel_size_on_ints [-2; 0; 250]). reflexivity. Defined.

(** ** What raises and what does not *)

(** Unfolds the comparisons of the goal for an argument known to be a
    number and splits on their outcomes. *)
Ltac run_checks Hnum :=
  unfold py_or, py_lt, py_gt, py_le, cmp_int; rewrite Hnum; simpl;
  repeat (match goal with
          | |- context [num_compare ?a ?b] =>
              destruct (num_compare a b) as [[] |]
          | |- context [py_eq ?a ?b] => destruct (py_eq a b)
          end; simpl);
  eauto.

Lemma scalar_checks_return (v : pyval) :
  is_Some (num_of v) →
  (∃ errors warnings, validate_total_pairs v = Ok (errors, warnings, v))
  ∧ (∃ errors warnings,
        validate_labeling_duration v = Ok (errors, warnings, v))
  ∧ (∃ errors warnings,
        validate_post_labeling_delay v = Ok (errors, warnings, v))
  ∧ (∃ errors warnings,
        validate_inversion_time v = Ok (errors, warnings, v)).
Proof.
  intros [x Hx]. repeat split.
  - unfold validate_total_pairs. run_checks Hx.
  - unfold validate_labeling_duration. run_checks Hx.
  - unfold validate_post_labeling_delay. run_checks Hx.
  - unfold validate_inversion_time. run_checks Hx.
Qed.

Lemma scalar_checks_raise (v : pyval) :
  num_of v = None →
  validate_total_pairs v = Raise TypeError
  ∧ validate_labeling_duration v = Raise TypeError
  ∧ validate_post_labeling_delay v = Raise TypeError
  ∧ validate_inversion_time v = Raise TypeError.
Proof.
  intros Hv.
  unfold validate_total_pairs, validate_labeling_duration,
    validate_post_labeling_delay, validate_inversion_time,
    py_or, py_lt, py_gt, py_le, cmp_int.
  by rewrite Hv.
Qed.

(** X3: each of the four scalar range validators raises [TypeError] exactly
    when its argument is not a number (a bool, an int or a float), and then
    reports nothing; on every number it returns. *)
Theorem scalar_checks_raise_iff :
  ∀ validator,
    validator ∈ [validate_total_pairs; validate_labeling_duration;
                 validate_post_labeling_delay; validate_inversion_time] →
    ∀ v, (validator v = Raise TypeError ↔ num_of v = None)
         ∧ (is_Some (num_of v) →
            ∃ errors warnings, validator v = Ok (errors, warnings, v)).
Proof.
  intros validator Hin v.
  assert (is_Some (num_of v) →
          ∃ errors warnings, validator v = Ok (errors, warnings, v)) as Hok.
  { intros Hnum.
    destruct (scalar_checks_return v Hnum) as (H1 & H2 & H3 & H4).
    repeat (apply elem_of_cons in Hin as [-> | Hin]); try done.
    by apply elem_of_nil in Hin. }
  split; [| done]. split.
  - intros Hraise. destruct (num_of v) as [x |] eqn:Hx; [| done].
    destruct Hok as (e & w & Hret); [by eexists |]. congruence.
  - intros Hnone.
    destruct (scalar_checks_raise v Hnone) as (H1 & H2 & H3 & H4).
    repeat (apply elem_of_cons in Hin as [-> | Hin]); try done.
    by apply elem_of_nil in Hin.
Qed.

Lemma scalar_checks_raise_iff_witness :
  validate_labeling_duration (PStr "1.8") = Raise TypeError
  ∧ ∃ errors warnings,
      validate_inversion_time (PFloat float_1_8)
      = Ok (errors, warnings, PFloat float_1_8).
Proof.
  split.
  - apply (scalar_checks_raise_iff validate_labeling_duration);
      [| reflexivity].
    apply elem_of_cons. right. apply elem_of_cons. by left.
  - apply (scalar_checks_raise_iff validate_inversion_time);
      [| by eexists].
    do 3 (apply elem_of_cons; right). apply elem_of_cons. by left.
Defined.

Lemma voxel_loop_raises (sizes : list pyval) (errors warnings : list string) :
  voxel_loop sizes errors warnings = Raise TypeError ↔
  ∃ size, size ∈ sizes ∧ num_of size = None.
Proof.
  revert errors warnings.
  induction sizes as [| size rest IH]; intros errors warnings.
  - simpl. split; [done |]. intros (x & Hin & _). by apply elem_of_nil in Hin.
  - rewrite voxel_loop_cons.
    destruct (num_of size) as [x |] eqn:Hx.
    + assert ((∃ s, s ∈ size :: rest ∧ num_of s = None)
              ↔ ∃ s, s ∈ rest ∧ num_of s = None) as ->.
      { split; intros (s & Hin & Hs); exists s; (split; [| done]).
        - apply elem_of_cons in Hin as [-> | Hin]; [congruence | done].
        - apply elem_of_cons. by right. }
      unfold py_or, py_lt, py_gt, cmp_int. rewrite Hx. simpl.
      repeat (match goal with
              | |- context [num_compare ?a ?b] =>
                  destruct (num_compare a b) as [[] |]
              end; simpl);
        apply IH.
    + unfold py_or, py_lt, cmp_int. rewrite Hx. simpl. split; [| done].
      intros _. exists size. split; [| done]. apply elem_of_cons. by left.
Qed.

(** X4: [validate_voxel_size] never raises on a value of the wrong shape; it
    raises [TypeError] exactly on a list of three elements one of which is
    not a number. *)
Theorem validate_voxel_size_raises_iff :
  ∀ v,
    validate_voxel_size v = Raise TypeError ↔
    ∃ sizes, v = PList sizes ∧ length sizes = 3%nat
             ∧ ∃ size, size ∈ sizes ∧ num_of size = None.
Proof.
  intros v. unfold validate_voxel_size.
  destruct v as [| | | | | sizes |];
    try (split; [done | by intros (? & ? & _)]).
  destruct (Nat.eqb_spec (length sizes) 3) as [Hlen | Hlen]; simpl.
  - destruct (voxel_loop sizes [] []) as [[e w] | []] eqn:Hloop; simpl.
    + split; [done |]. intros (sizes' & [= <-] & _ & Hbad).
      apply (voxel_loop_raises sizes [] []) in Hbad. congruence.
    + split; [| done]. intros _. exists sizes.
      split; [done |]. split; [done |]. by apply voxel_loop_raises in Hloop.
  - split; [done |]. by intros (sizes' & [= <-] & ? & _).
Qed.

(** ** Numbers that Python holds equal *)

Lemma py_eq_number_int (v : pyval) (x : numval) (c : Z) :
  num_of v = Some x →
  py_eq v (PInt c) =
  match num_compare x (NFin c 0) with Some Eq => true | _ => false end.
Proof. destruct v; intros [= <-]; reflexivity. Qed.

Lemma py_eq_int_number (v : pyval) (n : Z) :
  py_eq v (PInt n) = true →
  ∃ x, num_of v = Some x ∧ num_compare x (NFin n 0) = Some Eq.
Proof.
  intros Heq. destruct (num_of v) as [x |] eqn:Hx.
  - exists x. split; [done |].
    rewrite (py_eq_number_int v x n Hx) in Heq.
    by destruct (num_compare x (NFin n 0)) as [[] |].
  - by destruct v.
Qed.

Lemma num_compare_eq_int (x : numval) (n c : Z) :
  num_compare x (NFin n 0) = Some Eq →
  num_compare x (NFin c 0) = Some (n ?= c).
Proof.
  destruct x as [| [] | m e]; simpl; try done.
  intros [= Heq%Z.compare_eq]. f_equal. rewrite Heq.
  assert (0 < 2 ^ (0 - e `min` 0)) by (apply Z.pow_pos_nonneg; lia).
  destruct (Z.compare_spec (n * 2 ^ (0 - e `min` 0))
              (c * 2 ^ (0 - e `min` 0))),
    (Z.compare_spec n c); (done || nia).
Qed.

Lemma cmp_int_eq_int (v : pyval) (n c : Z) :
  py_eq v (PInt n) = true → cmp_int v c = cmp_int (PInt n) c.
Proof.
  intros (x & Hx & Heq)%py_eq_int_number.
  rewrite cmp_int_of_int. unfold cmp_int. rewrite Hx.
  by rewrite (num_compare_eq_int x n c Heq).
Qed.

Lemma py_eq_eq_int (v : pyval) (n c : Z) :
  py_eq v (PInt n) = true → py_eq v (PInt c) = py_eq (PInt n) (PInt c).
Proof.
  intros Heq. pose proof (cmp_int_eq_int v n c Heq) as Hcmp.
  apply py_eq_int_number in Heq as (x & Hx & _).
  rewrite cmp_int_of_int in Hcmp. unfold cmp_int in Hcmp. rewrite Hx in Hcmp.
  injection Hcmp as Hcmp.
  rewrite (py_eq_number_int v x c Hx), Hcmp, py_eq_int.
  destruct (Z.compare_spec n c); case_bool_decide; (done || lia).
Qed.

(** X5: the scalar range validators do not tell apart numbers that Python
    holds equal: a value equal to the int [n] (the float [5.0] for [5],
    [True] for [1]) gets the errors and warnings of [n], and is returned as
    it was given. *)
Theorem scalar_checks_respect_equality :
  ∀ validator,
    validator ∈ [validate_total_pairs; validate_labeling_duration;
                 validate_post_labeling_delay; validate_inversion_time] →
    ∀ (v : pyval) (n : Z),
      py_eq v (PInt n) = true →
      ∃ errors warnings,
        validator v = Ok (errors, warnings, v)
        ∧ validator (PInt n) = Ok (errors, warnings, PInt n).
Proof.
  intros validator Hin v n Heq.
  pose proof (λ c, cmp_int_eq_int v n c Heq) as Hcmp.
  pose proof (λ c, py_eq_eq_int v n c Heq) as Hpy.
  repeat (apply elem_of_cons in Hin as [-> | Hin]);
    [ unfold validate_total_pairs
    | unfold validate_labeling_duration
    | unfold validate_post_labeling_delay
    | unfold validate_inversion_time
    | by apply elem_of_nil in Hin ];
    unfold py_lt, py_gt, py_le; rewrite ?Hpy, !Hcmp, !cmp_int_of_int;
    simpl;
    repeat (match goal with
            | |- context [?a ?= ?b] => destruct (a ?= b)
            | |- context [py_eq ?a ?b] => destruct (py_eq a b)
            end; simpl);
    eauto.
Qed.

Lemma scalar_checks_respect_equality_witness :
  ∃ errors warnings,
    validate_total_pairs (PFloat (S754_finite false 5 0))
    = Ok (errors, warnings, PFloat (S754_finite false 5 0))
    ∧ validate_total_pairs (PInt 5) = Ok (errors, warnings, PInt 5).
Proof.
  apply (scalar_checks_respect_equality validate_total_pairs).
  - apply elem_of_cons. by left.
  - reflexivity.
Defined.

(** ** The categorical validators *)

Lemma py_in_strings (v : pyval) (accepted : list string) :
  py_in v (PStr <$> accepted) = true ↔ v ∈ (PStr <$> accepted).
Proof.
  rewrite py_in_spec. split.
  - intros (a & Hin & Heq).
    apply list_elem_of_fmap in Hin as (s & -> & Hs).
    apply py_eq_str_r in Heq as ->. apply list_elem_of_fmap. eauto.
  - intros Hin. exists v. split; [done |].
    apply list_elem_of_fmap in Hin as (s & -> & _). by apply py_eq_str_r.
Qed.

(** X6: [validate_asl_type] returns its argument unchanged and no warning,
    with no error when the argument is one of the four valid type strings
    and exactly one error otherwise (any non-string included). *)
Theorem validate_asl_type_errors :
  ∀ (py_str : pyval → string) (asl_type : pyval),
    ∃ errors,
      validate_asl_type py_str asl_type = (errors, [], asl_type)
      ∧ (errors = [] ↔ asl_type ∈ VALID_ASL_TYPES)
      ∧ (asl_type ∉ VALID_ASL_TYPES → length errors = 1%nat).
Proof.
  intros py_str asl_type. unfold validate_asl_type.
  pose proof (py_in_strings asl_type
                ["PASL"; "PCASL"; "(P)CASL"; "Velocity-selective"]) as Hin.
  change (PStr <$> _) with VALID_ASL_TYPES in Hin.
  destruct (py_in asl_type VALID_ASL_TYPES); simpl; eexists;
    (split; [reflexivity |]); split.
  - split; [intros _; by apply Hin | done].
  - intros Hout. destruct Hout. by apply Hin.
  - split; [done |]. intros Hvalid%Hin. done.
  - done.
Qed.

(** X7: [validate_background_suppression] never warns and reports at most
    its one error.  A bool is accepted and shown as "Yes" or "No"; an int is
    accepted exactly when it is 0 or 1, which equal [False] and [True];
    [None] (an absent field) is an error shown as "No"; any string is an
    error, shown as "Yes" unless it is empty, since the displayed value
    follows truthiness alone. *)
Theorem validate_background_suppression_cases :
  (∀ b : bool,
      validate_background_suppression (PBool b)
      = ([], [], PStr (if b then "Yes" else "No")))
  ∧ (∀ n : Z,
      (validate_background_suppression (PInt n)).1.1 = [] ↔ n = 0 ∨ n = 1)
  ∧ validate_background_suppression PNone
    = (["Missing or invalid 'BackgroundSuppression' (should be True or False)"],
       [], PStr "No")
  ∧ (∀ s : string,
      validate_background_suppression (PStr s)
      = (["Missing or invalid 'BackgroundSuppression' (should be True or False)"],
         [], PStr (if String.eqb s "" then "No" else "Yes")))
  ∧ (∀ bs, (validate_background_suppression bs).1.2 = []
           ∧ (length (validate_background_suppression bs).1.1 ≤ 1)%nat).
Proof.
  split; [| split; [| split; [| split]]].
  - by intros [].
  - intros n. unfold validate_background_suppression, py_in. simpl.
    rewrite !Z.mul_1_r.
    destruct (Z.compare_spec n 1), (Z.compare_spec n 0); simpl;
      split; (done || lia).
  - reflexivity.
  - intros s. unfold validate_background_suppression. simpl.
    by destruct (String.eqb s "").
  - intros bs. unfold validate_background_suppression.
    destruct (py_in bs [PBool true; PBool false]); simpl; split; (done || lia).
Qed.

(** * Further properties of the domain rule entry points *)

Lemma scalar_checks_count v errors warnings x :
  (validate_total_pairs v = Ok (errors, warnings, x)
   ∨ validate_labeling_duration v = Ok (errors, warnings, x)
   ∨ validate_post_labeling_delay v = Ok (errors, warnings, x)) →
  (length errors + length warnings ≤ 1)%nat.
Proof.
  unfold validate_total_pairs, validate_labeling_duration,
    validate_post_labeling_delay.
  intros [H | [H | H]]; revert H; repeat split_check;
    intros; simplify_eq; simpl; lia.
Qed.

Lemma validate_voxel_size_count v errors warnings x :
  validate_voxel_size v = Ok (errors, warnings, x) →
  (length errors + length warnings ≤ 3)%nat.
Proof.
  unfold validate_voxel_size. destruct v as [| | | | | sizes |];
    try (intros; simplify_eq; simpl; lia).
  destruct (Nat.eqb_spec (length sizes) 3) as [Hlen | Hlen]; simpl;
    [| intros; simplify_eq; simpl; lia].
  destruct (voxel_loop sizes [] []) as [[e w] |] eqn:Hloop; simpl; [| done].
  intros [= <- <- <-]. apply voxel_loop_length in Hloop. simpl in Hloop. lia.
Qed.

(** X8: [verify_general_parameters] raises [TypeError] exactly when the
    record holds a [TotalAcquiredPairs] that is not a number, or an
    [AcquisitionVoxelSize] that is a list of three with an element that is
    not a number; an absent field, or one of the three categorical fields
    whatever its value, never makes it raise. *)
Theorem verify_general_parameters_raises_iff :
  ∀ (py_str : pyval → string) (data : gmap string pyval),
    verify_general_parameters py_str data = Raise TypeError ↔
    (∃ v, data !! "TotalAcquiredPairs" = Some v ∧ num_of v = None)
    ∨ (∃ sizes,
          data !! "AcquisitionVoxelSize" = Some (PList sizes)
          ∧ length sizes = 3%nat
          ∧ ∃ size, size ∈ sizes ∧ num_of size = None).
Proof.
  intros py_str data. unfold verify_general_parameters.
  destruct (validate_asl_type py_str _) as [[e1 w1] v1].
  destruct (validate_background_suppression _) as [[e2 w2] v2].
  destruct (validate_m0b_method _) as [[e3 w3] v3].
  assert (num_of (get_or data "TotalAcquiredPairs" (PInt (-1))) = None ↔
          ∃ v, data !! "TotalAcquiredPairs" = Some v ∧ num_of v = None)
    as Hpairs.
  { unfold get_or. destruct (data !! "TotalAcquiredPairs") as [v |]; simpl.
    - split; [by exists v | by intros (? & [= <-] & ?)].
    - split; [done | by intros (? & ? & _)]. }
  destruct (num_of (get_or data "TotalAcquiredPairs" (PInt (-1))))
    as [x |] eqn:Hx.
  - destruct (scalar_checks_return _ (mk_is_Some _ _ Hx))
      as ((e4 & w4 & ->) & _). simpl.
    assert (¬ ∃ v, data !! "TotalAcquiredPairs" = Some v ∧ num_of v = None)
      as Hnot by (intros H; by apply Hpairs in H).
    unfold validate_voxel_size, get_or.
    destruct (data !! "AcquisitionVoxelSize") as [[| | | | | sizes |] |];
      simpl;
      try (split; [done | intros [? | (? & ? & _)]; done]).
    destruct (Nat.eqb_spec (length sizes) 3) as [Hlen | Hlen]; simpl.
    + destruct (voxel_loop sizes [] []) as [[e w] | []] eqn:Hloop; simpl.
      * split; [done |]. intros [? | (sizes' & [= <-] & _ & Hbad)]; [done |].
        apply (voxel_loop_raises sizes [] []) in Hbad. congruence.
      * split; [| done]. intros _. right. exists sizes.
        split; [done |]. split; [done |].
        by apply voxel_loop_raises in Hloop.
    + split; [done |]. intros [? | (sizes' & [= <-] & ? & _)]; done.
  - destruct (scalar_checks_raise _ Hx) as (-> & _). simpl.
    split; [| done]. intros _. left. by apply Hpairs.
Qed.

Lemma categorical_checks_count (py_str : pyval → string) (v : pyval) :
  ((length (validate_asl_type py_str v).1.1 ≤ 1)%nat
   ∧ (validate_asl_type py_str v).1.2 = [])
  ∧ ((length (validate_background_suppression v).1.1 ≤ 1)%nat
     ∧ (validate_background_suppression v).1.2 = []
     ∧ ((validate_background_suppression v).2 = PStr "Yes"
        ∨ (validate_background_suppression v).2 = PStr "No"))
  ∧ ((length (validate_m0b_method v).1.1 ≤ 1)%nat
     ∧ (validate_m0b_method v).1.2 = []).
Proof.
  unfold validate_asl_type, validate_background_suppression,
    validate_m0b_method.
  destruct (py_in v VALID_ASL_TYPES), (py_in v [PBool true; PBool false]),
    (py_truthy v); simpl; repeat split; auto.
Qed.

(** X9: whenever [verify_general_parameters] returns, its values dict has
    exactly five keys ([M0Type] is entered as [MethodForM0bEstimation]), the
    background suppression is shown as "Yes" or "No", and the errors and
    warnings number at most seven together: one for each of the four scalar
    fields and three for the voxel size. *)
Theorem verify_general_parameters_shape :
  ∀ (py_str : pyval → string) (data : gmap string pyval)
    errors warnings (values : gmap string pyval),
    verify_general_parameters py_str data = Ok (errors, warnings, values) →
    dom values
    = ({["ArterialSpinLabelingType"; "BackgroundSuppression";
         "MethodForM0bEstimation"; "TotalAcquiredPairs";
         "AcquisitionVoxelSize"]} : gset string)
    ∧ (values !! "BackgroundSuppression" = Some (PStr "Yes")
       ∨ values !! "BackgroundSuppression" = Some (PStr "No"))
    ∧ (length errors + length warnings ≤ 7)%nat.
Proof.
  intros py_str data errors warnings values.
  unfold verify_general_parameters.
  destruct (categorical_checks_count py_str
              (get_or data "ArterialSpinLabelingType" (PStr "")))
    as ((Hn1 & Hw1) & _ & _).
  destruct (categorical_checks_count py_str
              (get data "BackgroundSuppression"))
    as (_ & (Hn2 & Hw2 & Hshown) & _).
  destruct (categorical_checks_count py_str (get_or data "M0Type" (PStr "")))
    as (_ & _ & (Hn3 & Hw3)).
  destruct (validate_asl_type py_str _) as [[e1 w1] v1].
  destruct (validate_background_suppression _) as [[e2 w2] v2].
  destruct (validate_m0b_method _) as [[e3 w3] v3].
  simpl in Hn1, Hw1, Hn2, Hw2, Hshown, Hn3, Hw3. subst w1 w2 w3.
  destruct (validate_total_pairs _) as [[[e4 w4] x4] |] eqn:E4; simpl;
    [| done].
  destruct (validate_voxel_size _) as [[[e5 w5] x5] |] eqn:E5; simpl;
    [| done].
  intros [= <- <- <-].
  assert (length e4 + length w4 ≤ 1)%nat
    by (eapply scalar_checks_count; eauto).
  apply validate_voxel_size_count in E5.
  split; [| split].
  - rewrite !dom_insert_L, dom_empty_L. set_solver.
  - rewrite lookup_insert_ne, lookup_insert_ne, lookup_insert_ne,
      lookup_insert_eq by done.
    destruct Hshown as [-> | ->]; auto.
  - rewrite !length_app. simpl. lia.
Qed.

Lemma verify_general_parameters_shape_witness :
  dom (<["AcquisitionVoxelSize" := PList [PInt 3; PInt 3; PInt 3]]>
         (<["TotalAcquiredPairs" := PInt 5]>
            (<["MethodForM0bEstimation" := PStr "Separate"]>
               (<["BackgroundSuppression" := PStr "Yes"]>
                  ({["ArterialSpinLabelingType" := PStr "PCASL"]}
                   : gmap string pyval)))))
  = ({["ArterialSpinLabelingType"; "BackgroundSuppression";
       "MethodForM0bEstimation"; "TotalAcquiredPairs";
       "AcquisitionVoxelSize"]} : gset string).
Proof.
  eapply (verify_general_parameters_shape (λ _, "") scenario_record [] []).
  reflexivity.
Defined.

(** The PCASL rule reads the record through four fields only, each with
    [None] for an absent one. *)
Lemma verify_PCASL_required_parameters_reads (data data' : gmap string pyval) :
  (∀ key, key ∈ ["ArterialSpinLabelingType"; "ArterialSpinType";
                 "LabelingDuration"; "PostLabelingDelay"] →
          get data key = get data' key) →
  verify_PCASL_required_parameters data
  = verify_PCASL_required_parameters data'.
Proof.
  intros Hsame.
  unfold verify_PCASL_required_parameters, pcasl_demanded, get_or.
  change (default PNone (?m !! ?k)) with (get m k).
  rewrite (Hsame "ArterialSpinLabelingType"), (Hsame "ArterialSpinType"),
    (Hsame "LabelingDuration"), (Hsame "PostLabelingDelay")
    by (repeat constructor).
  done.
Qed.

(** X10: for [verify_PCASL_required_parameters] a field that the record
    holds as [None] (a JSON null) is the same as a field that the record
    lacks: both for [LabelingDuration] and for [PostLabelingDelay] the result
    is the one of the record without the key. *)
Theorem verify_PCASL_null_is_absent :
  ∀ (data : gmap string pyval) (field : string),
    field ∈ ["LabelingDuration"; "PostLabelingDelay"] →
    verify_PCASL_required_parameters (<[field := PNone]> data)
    = verify_PCASL_required_parameters (delete field data).
Proof.
  intros data field Hfield.
  apply verify_PCASL_required_parameters_reads. intros key Hkey.
  unfold get. destruct (decide (key = field)) as [-> | Hne].
  - by rewrite lookup_insert_eq, lookup_delete_eq.
  - by rewrite lookup_insert_ne, lookup_delete_ne.
Qed.

Lemma verify_PCASL_null_is_absent_witness :
  verify_PCASL_required_parameters
    (<["LabelingDuration" := PNone]>
       {["ArterialSpinLabelingType" := PStr "PCASL"]})
  = verify_PCASL_required_parameters
      (delete "LabelingDuration"
         ({["ArterialSpinLabelingType" := PStr "PCASL"]}
          : gmap string pyval)).
Proof.
  apply verify_PCASL_null_is_absent. apply elem_of_cons. by left.
Defined.

(** X11: whenever [verify_PCASL_required_parameters] returns, it reports at
    most two messages, errors and warnings together (each of the two fields
    gives one error, one warning or nothing), and its values dict has no key
    besides [LabelingDuration] and [PostLabelingDelay]. *)
Theorem verify_PCASL_required_parameters_shape :
  ∀ (data : gmap string pyval) errors warnings (values : gmap string pyval),
    verify_PCASL_required_parameters data = Ok (errors, warnings, values) →
    (length errors + length warnings ≤ 2)%nat
    ∧ dom values ⊆ ({["LabelingDuration"; "PostLabelingDelay"]} : gset string).
Proof.
  intros data errors warnings values.
  unfold verify_PCASL_required_parameters, get_or.
  destruct (pcasl_demanded data).
  - split_is_None "LabelingDuration";
      [| destruct (validate_labeling_duration _)
           as [[[e1 w1] x1] |] eqn:E1; simpl; [| done];
         assert (length e1 + length w1 ≤ 1)%nat
           by (eapply scalar_checks_count; eauto) ];
      (split_is_None "PostLabelingDelay";
       [| destruct (validate_post_labeling_delay _)
            as [[[e2 w2] x2] |] eqn:E2; simpl; [| done];
          assert (length e2 + length w2 ≤ 1)%nat
            by (eapply scalar_checks_count; eauto) ]);
      intros [= <- <- <-];
      (split;
       [ rewrite ?length_app; simpl; lia
       | rewrite ?dom_insert_L, dom_empty_L; set_unfold; tauto ]).
  - intros [= <- <- <-]. split; [simpl; lia |].
    rewrite !dom_insert_L, dom_empty_L. set_unfold. tauto.
Qed.

Lemma verify_PCASL_required_parameters_shape_witness :
  (length ["'LabelingDuration' out of valid range (0-100)"]
   + length ["'PostLabelingDelay' is less than 1 or greater than 10, which may be unusual"]
   ≤ 2)%nat.
Proof.
  eapply (verify_PCASL_required_parameters_shape
            (<["ArterialSpinLabelingType" := PStr "PCASL"]>
               (<["LabelingDuration" := PInt 120]>
                  {["PostLabelingDelay" := PInt 0]}))).
  reflexivity.
Defined.

(** * Further properties of the schema engine *)

(** ** What validate writes, field by field *)

Lemma validate_at_absent (self : JSONValidator.t) (data : gmap string pyval)
    (field : string) :
  data !! field = None →
  at_field field (JSONValidator.validate self data) =
  (if bool_decide (field ∈ (JSONValidator.required_validator_schema self).*1)
      && required_applies self data field
   then Some (PStr "Missing required parameter") else None,
   None,
   if bool_decide (field ∈ (JSONValidator.recommended_validator_schema self).*1)
      && recommended_applies self data field
   then Some (PStr "Recommended to be specified") else None).
Proof.
  intros Habsent. rewrite validate_passes.
  set (mid := JSONValidator.apply_schema _
                (JSONValidator.required_condition_schema self) data
                (∅, ∅, ∅) true).
  assert (at_field field mid =
          (if bool_decide
                (field ∈ (JSONValidator.required_validator_schema self).*1)
              && required_applies self data field
           then Some (PStr "Missing required parameter") else None,
           None, None)) as Hmid.
  { unfold mid. case_bool_decide as Hin; simpl.
    - destruct (required_applies self data field) eqn:Hcond.
      + rewrite (apply_schema_absent _ _ true _ _ _ Hin Hcond Habsent).
        simpl. by rewrite !lookup_empty.
      + rewrite (apply_schema_skip _ _ true _ _ _ Hcond).
        apply at_field_start.
    - rewrite apply_schema_not_listed by done. apply at_field_start. }
  unfold at_field in Hmid. injection Hmid as Herr Hwarn Hval.
  revert Herr.
  generalize (if bool_decide
                   (field ∈ (JSONValidator.required_validator_schema self).*1)
                 && required_applies self data field
              then Some (PStr "Missing required parameter") else None).
  intros err Herr.
  case_bool_decide as Hin; simpl.
  - destruct (recommended_applies self data field) eqn:Hcond.
    + rewrite (apply_schema_absent _ _ false _ _ _ Hin Hcond Habsent).
      by rewrite Herr, Hwarn.
    + rewrite (apply_schema_skip _ _ false _ _ _ Hcond).
      unfold at_field. by rewrite Herr, Hwarn, Hval.
  - rewrite apply_schema_not_listed by done.
    unfold at_field. by rewrite Herr, Hwarn, Hval.
Qed.

(** X12: [validate] writes under the field names of its two validator
    schemas only: a field that neither schema lists has no entry in any of
    the three dicts, whatever the record holds under it. *)
Theorem validate_unlisted_field :
  ∀ (self : JSONValidator.t) (data : gmap string pyval) (field : string),
    field ∉ (JSONValidator.required_validator_schema self).*1 →
    field ∉ (JSONValidator.recommended_validator_schema self).*1 →
    (JSONValidator.validate self data).1.1 !! field = None
    ∧ (JSONValidator.validate self data).1.2 !! field = None
    ∧ (JSONValidator.validate self data).2 !! field = None.
Proof.
  intros self data field Hreq Hrec.
  pose proof (apply_schema_not_listed
                (JSONValidator.recommended_condition_schema self) data false
                (JSONValidator.recommended_validator_schema self)
                (JSONValidator.apply_schema
                   (JSONValidator.required_validator_schema self)
                   (JSONValidator.required_condition_schema self) data
                   (∅, ∅, ∅) true)
                field Hrec) as Hsecond.
  rewrite <- validate_passes in Hsecond.
  rewrite apply_schema_not_listed, at_field_start in Hsecond by done.
  unfold at_field in Hsecond. by injection Hsecond as -> -> ->.
Qed.

Lemma validate_unlisted_field_witness :
  let self := JSONValidator.main_validator (λ _, boolean_validator) in
  let data : gmap string pyval := {["RepetitionTime" := PInt 4]} in
  (JSONValidator.validate self data).1.1 !! "RepetitionTime" = None
  ∧ (JSONValidator.validate self data).1.2 !! "RepetitionTime" = None
  ∧ (JSONValidator.validate self data).2 !! "RepetitionTime" = None.
Proof.
  intros self data.
  apply validate_unlisted_field; simpl;
    apply (bool_decide_unpack _); reflexivity.
Defined.

(** X13: for a field that the record lacks, [validate] never stores a
    warning; [errors] holds the missing-parameter message when the required
    schema lists the field and its condition there holds, and nothing
    otherwise; [values] holds "Recommended to be specified" when the
    recommended schema lists the field and its condition there holds, and
    nothing otherwise.  No validator is consulted. *)
Theorem validate_absent_field :
  ∀ (self : JSONValidator.t) (data : gmap string pyval) (field : string),
    data !! field = None →
    let required :=
      field ∈ (JSONValidator.required_validator_schema self).*1
      ∧ required_applies self data field = true in
    let recommended :=
      field ∈ (JSONValidator.recommended_validator_schema self).*1
      ∧ recommended_applies self data field = true in
    (JSONValidator.validate self data).1.2 !! field = None
    ∧ (required →
       (JSONValidator.validate self data).1.1 !! field
       = Some (PStr "Missing required parameter"))
    ∧ (¬ required → (JSONValidator.validate self data).1.1 !! field = None)
    ∧ (recommended →
       (JSONValidator.validate self data).2 !! field
       = Some (PStr "Recommended to be specified"))
    ∧ (¬ recommended → (JSONValidator.validate self data).2 !! field = None).
Proof.
  intros self data field Habsent required recommended.
  pose proof (validate_at_absent self data field Habsent) as H.
  unfold at_field in H. injection H as Herr Hwarn Hval.
  rewrite Herr, Hwarn, Hval. clear Herr Hwarn Hval.
  unfold required, recommended. split; [done |].
  repeat split.
  - intros [Hin ->]. by rewrite bool_decide_eq_true_2.
  - intros Hnot. case_bool_decide as Hin; simpl; [| done].
    destruct (required_applies self data field); [| done].
    by destruct Hnot.
  - intros [Hin ->]. by rewrite bool_decide_eq_true_2.
  - intros Hnot. case_bool_decide as Hin; simpl; [| done].
    destruct (recommended_applies self data field); [| done].
    by destruct Hnot.
Qed.

Lemma validate_absent_field_witness :
  let self := JSONValidator.main_validator (λ _, boolean_validator) in
  let data : gmap string pyval :=
    {["ArterialSpinLabelingType" := PStr "PASL"]} in
  (JSONValidator.validate self data).1.2 !! "InversionTime" = None
  ∧ (JSONValidator.validate self data).1.1 !! "InversionTime"
    = Some (PStr "Missing required parameter")
  ∧ (JSONValidator.validate self data).2 !! "InversionTime" = None.
Proof.
  intros self data.
  destruct (validate_absent_field self data "InversionTime" eq_refl)
    as (Hwarn & Herr & _ & _ & Hval).
  split; [exact Hwarn |]. split.
  - apply Herr. split; [simpl; repeat constructor | reflexivity].
  - apply Hval. intros [Hin _]. revert Hin. simpl.
    apply (bool_decide_unpack _). reflexivity.
Defined.

(** X14: [validate] never normalizes or invents a value: an entry of
    [values] is the record's own raw value under the same field, or, for a
    field that the record lacks, the one sentinel "Recommended to be
    specified" of an applicable recommended field. *)
Theorem validate_values_provenance :
  ∀ (self : JSONValidator.t) (data : gmap string pyval) (field : string)
    (v : pyval),
    (JSONValidator.validate self data).2 !! field = Some v →
    data !! field = Some v
    ∨ (data !! field = None
       ∧ v = PStr "Recommended to be specified"
       ∧ field ∈ (JSONValidator.recommended_validator_schema self).*1
       ∧ recommended_applies self data field = true).
Proof.
  intros self data field v Hv.
  destruct (data !! field) as [raw |] eqn:Hdata.
  - left.
    destruct (decide (field ∈ (JSONValidator.recommended_validator_schema self).*1
                      ∧ recommended_applies self data field = true))
      as [Hrec | Hnot].
    + rewrite (validate_present_value self data field raw) in Hv;
        [congruence | by right | done].
    + rewrite validate_value_kept in Hv by done.
      apply after_required_value in Hv as [Hv _]. congruence.
  - right. pose proof (validate_at_absent self data field Hdata) as H.
    unfold at_field in H. injection H as _ _ Hval. rewrite Hval in Hv.
    case_bool_decide as Hin; simpl in Hv; [| done].
    destruct (recommended_applies self data field); [| done].
    by injection Hv as <-.
Qed.

Lemma validate_values_provenance_witness :
  let data : gmap string pyval :=
    {["ArterialSpinLabelingType" := PStr "PASL"]} in
  data !! "PASLType" = Some (PStr "Recommended to be specified")
  ∨ (data !! "PASLType" = None
     ∧ PStr "Recommended to be specified" = PStr "Recommended to be specified"
     ∧ "PASLType"
       ∈ (JSONValidator.recommended_validator_schema
            (JSONValidator.main_validator (λ _, boolean_validator))).*1
     ∧ recommended_applies
         (JSONValidator.main_validator (λ _, boolean_validator)) data
         "PASLType" = true).
Proof.
  intros data. apply validate_values_provenance. reflexivity.
Defined.

(** X15: a field that the record holds, that exactly one of the two
    schemas lists (once, with its validator) and whose condition there holds
    gets its raw value in [values], the validator's error in [errors] when
    that error is truthy, and the validator's warning in [warnings] when that
    warning is truthy, and nothing else.  The recommended schema is no
    softer than the required one here: the error of a recommended field's
    validator is stored in [errors] all the same. *)
Theorem validate_present_field :
  ∀ (self : JSONValidator.t) (data : gmap string pyval) (field : string)
    (validator : Validator) (raw : pyval),
    data !! field = Some raw →
    ((field, validator) ∈ JSONValidator.required_validator_schema self
     ∧ NoDup (JSONValidator.required_validator_schema self).*1
     ∧ required_applies self data field = true
     ∧ field ∉ (JSONValidator.recommended_validator_schema self).*1)
    ∨ ((field, validator) ∈ JSONValidator.recommended_validator_schema self
       ∧ NoDup (JSONValidator.recommended_validator_schema self).*1
       ∧ recommended_applies self data field = true
       ∧ field ∉ (JSONValidator.required_validator_schema self).*1) →
    (JSONValidator.validate self data).1.1 !! field
    = (if py_truthy (validate validator raw).1
       then Some (validate validator raw).1 else None)
    ∧ (JSONValidator.validate self data).1.2 !! field
      = (if py_truthy (validate validator raw).2
         then Some (validate validator raw).2 else None)
    ∧ (JSONValidator.validate self data).2 !! field = Some raw.
Proof.
  intros self data field validator raw Hpresent Hlisted.
  assert (at_field field (JSONValidator.validate self data) =
          (if py_truthy (validate validator raw).1
           then Some (validate validator raw).1 else None,
           if py_truthy (validate validator raw).2
           then Some (validate validator raw).2 else None,
           Some raw)) as H.
  { rewrite validate_passes.
    destruct Hlisted as [(Hin & Hdup & Hcond & Hout)
                        | (Hin & Hdup & Hcond & Hout)].
    - rewrite apply_schema_not_listed by done.
      rewrite (apply_schema_present _ _ true _ _ _ _ raw Hdup Hin Hcond
                 Hpresent).
      simpl. by rewrite !lookup_empty.
    - rewrite (apply_schema_present _ _ false _ _ _ _ raw Hdup Hin Hcond
                 Hpresent).
      pose proof (apply_schema_not_listed
                    (JSONValidator.required_condition_schema self) data true
                    _ (∅, ∅, ∅) _ Hout) as Hfirst.
      rewrite at_field_start in Hfirst. unfold at_field in Hfirst.
      by injection Hfirst as -> -> _. }
  unfold at_field in H. by injection H as -> -> ->.
Qed.

Lemma validate_present_field_witness :
  let self :=
    {| JSONValidator.required_validator_schema := [];
       JSONValidator.required_condition_schema := ∅;
       JSONValidator.recommended_validator_schema :=
         [("BackgroundSuppression", boolean_validator)];
       JSONValidator.recommended_condition_schema := ∅ |} in
  let data : gmap string pyval := {["BackgroundSuppression" := PInt 2]} in
  (JSONValidator.validate self data).1.1 !! "BackgroundSuppression"
  = Some (PStr "Invalid value (should be True or False)")
  ∧ (JSONValidator.validate self data).1.2 !! "BackgroundSuppression" = None
  ∧ (JSONValidator.validate self data).2 !! "BackgroundSuppression"
    = Some (PInt 2).
Proof.
  intros self data.
  apply (validate_present_field self data "BackgroundSuppression"
           boolean_validator (PInt 2)); [reflexivity |].
  right. split; [repeat constructor |]. split.
  - simpl. apply NoDup_singleton.
  - split; [reflexivity |]. simpl. apply not_elem_of_nil.
Defined.

(** ** Order of the schema *)

Lemma outputs_eq (out out' : outputs) :
  (∀ field, at_field field out = at_field field out') → out = out'.
Proof.
  destruct out as [[errors warnings] values],
    out' as [[errors' warnings'] values'].
  unfold at_field. simpl. intros Hall.
  f_equal; [f_equal |]; apply map_eq; intros field;
    specialize (Hall field); congruence.
Qed.

Lemma apply_schema_permutation (condition_schema data : gmap string pyval)
    (is_required : bool) (schema schema' : list (string * Validator))
    (out : outputs) :
  NoDup schema.*1 → schema ≡ₚ schema' →
  JSONValidator.apply_schema schema condition_schema data out is_required
  = JSONValidator.apply_schema schema' condition_schema data out is_required.
Proof.
  intros Hdup Hperm. apply outputs_eq. intros field.
  assert (NoDup schema'.*1) as Hdup' by (by rewrite <- Hperm).
  destruct (decide (field ∈ schema.*1)) as [Hin | Hout].
  - assert (field ∈ schema'.*1) as Hin' by (by rewrite <- Hperm).
    destruct (JSONValidator.should_apply_validation data
                (default (PStr "all") (condition_schema !! field)))
      eqn:Hcond.
    + destruct (data !! field) as [raw |] eqn:Hdata.
      * apply list_elem_of_fmap in Hin as ([f validator] & -> & Hentry).
        simpl in *.
        assert ((f, validator) ∈ schema') as Hentry' by (by rewrite <- Hperm).
        rewrite (apply_schema_present _ _ _ schema _ _ _ raw
                   Hdup Hentry Hcond Hdata).
        by rewrite (apply_schema_present _ _ _ schema' _ _ _ raw
                      Hdup' Hentry' Hcond Hdata).
      * rewrite (apply_schema_absent _ _ _ schema _ _ Hin Hcond Hdata).
        by rewrite (apply_schema_absent _ _ _ schema' _ _ Hin' Hcond Hdata).
    + by rewrite !apply_schema_skip.
  - assert (field ∉ schema'.*1) as Hout' by (by rewrite <- Hperm).
    by rewrite !apply_schema_not_listed.
Qed.

(** X16: the order in which a validator schema lists its fields does not
    matter: two instances whose validator schemas are permutations of each
    other (the field names of each being distinct, as the keys of a dict
    are) and whose condition schemas are the same give the same result on
    every record. *)
Theorem validate_schema_order :
  ∀ (self self' : JSONValidator.t) (data : gmap string pyval),
    NoDup (JSONValidator.required_validator_schema self).*1 →
    NoDup (JSONValidator.recommended_validator_schema self).*1 →
    JSONValidator.required_validator_schema self
      ≡ₚ JSONValidator.required_validator_schema self' →
    JSONValidator.recommended_validator_schema self
      ≡ₚ JSONValidator.recommended_validator_schema self' →
    JSONValidator.required_condition_schema self
      = JSONValidator.required_condition_schema self' →
    JSONValidator.recommended_condition_schema self
      = JSONValidator.recommended_condition_schema self' →
    JSONValidator.validate self data = JSONValidator.validate self' data.
Proof.
  intros self self' data Hdup1 Hdup2 Hperm1 Hperm2 Hcond1 Hcond2.
  unfold JSONValidator.validate. rewrite <- Hcond1, <- Hcond2.
  rewrite (apply_schema_permutation _ _ true _ _ _ Hdup1 Hperm1).
  by rewrite (apply_schema_permutation _ _ false _ _ _ Hdup2 Hperm2).
Qed.

Lemma validate_schema_order_witness :
  let conditions : gmap string pyval :=
    {["InversionTime" := JSONValidator.labeling_is "PASL"]} in
  let data : gmap string pyval :=
    <["ArterialSpinLabelingType" := PStr "PASL"]>
      {["BackgroundSuppression" := PStr "no"]} in
  JSONValidator.validate
    {| JSONValidator.required_validator_schema :=
         [("BackgroundSuppression", boolean_validator);
          ("InversionTime", boolean_validator)];
       JSONValidator.required_condition_schema := conditions;
       JSONValidator.recommended_validator_schema := [];
       JSONValidator.recommended_condition_schema := ∅ |} data
  = JSONValidator.validate
      {| JSONValidator.required_validator_schema :=
           [("InversionTime", boolean_validator);
            ("BackgroundSuppression", boolean_validator)];
         JSONValidator.required_condition_schema := conditions;
         JSONValidator.recommended_validator_schema := [];
         JSONValidator.recommended_condition_schema := ∅ |} data.
Proof.
  intros conditions data.
  apply validate_schema_order; simpl; try reflexivity.
  - apply (bool_decide_unpack _). reflexivity.
  - apply NoDup_nil_2.
  - apply Permutation_swap.
Defined.

(** ** The condition evaluator as a conjunction *)

Lemma should_apply_validation_dict (data : gmap string pyval)
    (entries : list (string * pyval)) :
  JSONValidator.should_apply_validation data (PDict entries)
  = JSONValidator.entries_hold data entries.
Proof. reflexivity. Qed.

Lemma entries_hold_cons (data : gmap string pyval) (key : string)
    (expected : pyval) (rest : list (string * pyval)) :
  JSONValidator.entries_hold data ((key, expected) :: rest) =
  JSONValidator.entries_hold data [(key, expected)]
  && JSONValidator.entries_hold data rest.
Proof.
  simpl. destruct expected; simpl;
    match goal with |- context [negb ?b] => by destruct b end.
Qed.

Lemma entries_hold_app (data : gmap string pyval)
    (entries1 entries2 : list (string * pyval)) :
  JSONValidator.entries_hold data (entries1 ++ entries2) =
  JSONValidator.entries_hold data entries1
  && JSONValidator.entries_hold data entries2.
Proof.
  induction entries1 as [| [key expected] rest IH]; [done |].
  rewrite <- app_comm_cons, entries_hold_cons, IH.
  rewrite (entries_hold_cons data key expected rest).
  by rewrite andb_assoc.
Qed.

(** X17: a mapping condition is the conjunction of its entries.  For two
    mappings whose keys are all distinct, within each and between the two,
    the mapping that holds the entries of both holds exactly when both
    hold, so one failing entry fails the whole; and the order in which a
    mapping lists its entries does not matter. *)
Theorem should_apply_validation_conjunction :
  ∀ (data : gmap string pyval) (entries1 entries2 : list (string * pyval)),
    NoDup (entries1 ++ entries2).*1 →
    JSONValidator.should_apply_validation data (PDict (entries1 ++ entries2))
    = JSONValidator.should_apply_validation data (PDict entries1)
      && JSONValidator.should_apply_validation data (PDict entries2)
    ∧ (∀ entries, entries ≡ₚ entries1 →
         NoDup entries.*1
         ∧ JSONValidator.should_apply_validation data (PDict entries)
           = JSONValidator.should_apply_validation data (PDict entries1)).
Proof.
  intros data entries1 entries2 Hkeys.
  rewrite !should_apply_validation_dict. split.
  - apply entries_hold_app.
  - intros entries Hperm. split.
    + rewrite fmap_app in Hkeys. apply NoDup_app in Hkeys as (Hkeys1 & _ & _).
      by rewrite Hperm.
    + rewrite !should_apply_validation_dict. clear Hkeys.
      induction Hperm as [| [k e] l l' _ IH | [k1 e1] [k2 e2] l
                          | l l' l'' _ IH1 _ IH2].
      * done.
      * by rewrite entries_hold_cons, IH, <- entries_hold_cons.
      * rewrite (entries_hold_cons data k2 e2), (entries_hold_cons data k1 e1),
          (entries_hold_cons data k1 e1 (_ :: _)),
          (entries_hold_cons data k2 e2 l).
        rewrite !andb_assoc. f_equal. apply andb_comm.
      * by rewrite IH1.
Qed.

Lemma should_apply_validation_conjunction_witness :
  NoDup ([("ArterialSpinLabelingType", PStr "PASL")]
         ++ [("BackgroundSuppression", PBool true)]).*1
  ∧ JSONValidator.should_apply_validation
      {["ArterialSpinLabelingType" := PStr "PASL"]}
      (PDict ([("ArterialSpinLabelingType", PStr "PASL")]
              ++ [("BackgroundSuppression", PBool true)]))
    = JSONValidator.should_apply_validation
        {["ArterialSpinLabelingType" := PStr "PASL"]}
        (PDict [("ArterialSpinLabelingType", PStr "PASL")])
      && JSONValidator.should_apply_validation
           {["ArterialSpinLabelingType" := PStr "PASL"]}
           (PDict [("BackgroundSuppression", PBool true)])
  ∧ JSONValidator.should_apply_validation
      {["ArterialSpinLabelingType" := PStr "PASL"]}
      (PDict [("BackgroundSuppression", PBool true);
              ("ArterialSpinLabelingType", PStr "PASL")])
    = JSONValidator.should_apply_validation
        {["ArterialSpinLabelingType" := PStr "PASL"]}
        (PDict [("ArterialSpinLabelingType", PStr "PASL");
                ("BackgroundSuppression", PBool true)]).
Proof.
  assert (NoDup ([("ArterialSpinLabelingType", PStr "PASL")]
                 ++ [("BackgroundSuppression", PBool true)]).*1) as Hkeys
    by (apply (bool_decide_unpack _); reflexivity).
  split; [exact Hkeys |].
  destruct (should_apply_validation_conjunction
              {["ArterialSpinLabelingType" := PStr "PASL"]}
              [("ArterialSpinLabelingType", PStr "PASL")]
              [("BackgroundSuppression", PBool true)] Hkeys) as [Hboth _].
  split; [exact Hboth |].
  destruct (should_apply_validation_conjunction
              {["ArterialSpinLabelingType" := PStr "PASL"]}
              [("ArterialSpinLabelingType", PStr "PASL");
               ("BackgroundSuppression", PBool true)] []
              ltac:(apply (bool_decide_unpack _); reflexivity))
    as [_ Horder].
  apply Horder. apply Permutation_swap.
Defined.

(** X18: a condition is decided by the controlling fields it names alone:
    two records that agree on every controlling field of a mapping
    condition get the same answer, and for a condition that is not a mapping
    the record does not matter at all. *)
Theorem should_apply_validation_reads :
  ∀ (data data' : gmap string pyval) (condition : pyval),
    (∀ entries key expected,
        condition = PDict entries → (key, expected) ∈ entries →
        data !! key = data' !! key) →
    JSONValidator.should_apply_validation data condition
    = JSONValidator.should_apply_validation data' condition.
Proof.
  intros data data' condition Hsame.
  unfold JSONValidator.should_apply_validation.
  destruct (py_eq condition (PStr "all")); [done |].
  destruct condition as [| | | | | | entries]; try done.
  assert (∀ key expected, (key, expected) ∈ entries →
                          data !! key = data' !! key) as Hkeys
    by (intros key expected; by apply Hsame).
  clear Hsame.
  induction entries as [| [key expected] rest IH]; [done |].
  rewrite (entries_hold_cons data), (entries_hold_cons data'). f_equal.
  - simpl. unfold get.
    rewrite (Hkeys key expected) by (apply elem_of_cons; by left).
    done.
  - apply IH. intros k e Hin. apply (Hkeys k e).
    apply elem_of_cons. by right.
Qed.

Lemma should_apply_validation_reads_witness :
  JSONValidator.should_apply_validation
    {["ArterialSpinLabelingType" := PStr "PASL"]}
    (JSONValidator.labeling_is "PASL")
  = JSONValidator.should_apply_validation
      (<["ArterialSpinLabelingType" := PStr "PASL"]>
         {["BackgroundSuppression" := PBool true]})
      (JSONValidator.labeling_is "PASL").
Proof.
  apply should_apply_validation_reads.
  intros entries key expected [= <-] Hin.
  apply elem_of_cons in Hin as [[= -> _] | Hin];
    [reflexivity | by apply elem_of_nil in Hin].
Defined.

(** ** The tables of main *)

Lemma main_required_condition (field : string) (condition : pyval) :
  JSONValidator.main_required_condition_schema !! field = Some condition →
  ∀ validator_of data,
    required_applies (JSONValidator.main_validator validator_of) data field
    = JSONValidator.should_apply_validation data condition.
Proof.
  intros Hlookup validator_of data. unfold required_applies.
  change (JSONValidator.required_condition_schema
            (JSONValidator.main_validator validator_of))
    with JSONValidator.main_required_condition_schema.
  by rewrite Hlookup.
Qed.

Lemma PCASL_or_CASL_holds (data : gmap string pyval) :
  JSONValidator.should_apply_validation data JSONValidator.PCASL_or_CASL
  = true ↔
  data !! "ArterialSpinLabelingType" = Some (PStr "PCASL")
  ∨ data !! "ArterialSpinLabelingType" = Some (PStr "CASL").
Proof.
  rewrite <- !get_is_str.
  unfold JSONValidator.PCASL_or_CASL, JSONValidator.should_apply_validation.
  simpl.
  destruct (py_eq (get data "ArterialSpinLabelingType") (PStr "PCASL")),
    (py_eq (get data "ArterialSpinLabelingType") (PStr "CASL"));
    simpl; split; auto; intros [? | ?]; done.
Qed.

Lemma labeling_is_holds (data : gmap string pyval) (kind : string) :
  JSONValidator.should_apply_validation data (JSONValidator.labeling_is kind)
  = true ↔
  data !! "ArterialSpinLabelingType" = Some (PStr kind).
Proof.
  rewrite <- get_is_str.
  unfold JSONValidator.labeling_is, JSONValidator.should_apply_validation.
  simpl.
  by destruct (py_eq (get data "ArterialSpinLabelingType") (PStr kind)).
Qed.

(** X19: with the required tables of [main], on every record: the five
    general fields always apply; [LabelingDuration] and [PostLabelingDelay]
    apply exactly when [ArterialSpinLabelingType] is "PCASL" or "CASL"; the
    three PASL fields apply exactly when it is "PASL".  So the two groups are
    never demanded together, and the valid type "(P)CASL" demands neither. *)
Theorem main_required_conditions :
  ∀ (validator_of : string → Validator) (data : gmap string pyval)
    (field : string),
    let self := JSONValidator.main_validator validator_of in
    (field ∈ ["ArterialSpinLabelingType"; "BackgroundSuppression"; "M0Type";
              "TotalAcquiredPairs"; "AcquisitionVoxelSize"] →
     required_applies self data field = true)
    ∧ (field ∈ ["LabelingDuration"; "PostLabelingDelay"] →
       (required_applies self data field = true ↔
        data !! "ArterialSpinLabelingType" = Some (PStr "PCASL")
        ∨ data !! "ArterialSpinLabelingType" = Some (PStr "CASL")))
    ∧ (field ∈ ["InversionTime"; "BolusCutOffTechnique";
                "BolusCutOffDelayTime"] →
       (required_applies self data field = true ↔
        data !! "ArterialSpinLabelingType" = Some (PStr "PASL"))).
Proof.
  intros validator_of data field self. unfold self.
  split; [| split]; intros Hin;
    repeat (apply elem_of_cons in Hin as [-> | Hin]);
    try (by apply elem_of_nil in Hin).
  1-5: by rewrite (main_required_condition _ (PStr "all")).
  1-2: rewrite (main_required_condition _ JSONValidator.PCASL_or_CASL)
         by reflexivity;
       apply PCASL_or_CASL_holds.
  all: rewrite (main_required_condition _ (JSONValidator.labeling_is "PASL"))
         by reflexivity;
       apply labeling_is_holds.
Qed.

Lemma main_required_conditions_witness :
  let data : gmap string pyval :=
    {["ArterialSpinLabelingType" := PStr "(P)CASL"]} in
  required_applies (JSONValidator.main_validator (λ _, boolean_validator))
    data "M0Type" = true
  ∧ ¬ required_applies (JSONValidator.main_validator (λ _, boolean_validator))
        data "PostLabelingDelay" = true
  ∧ ¬ required_applies (JSONValidator.main_validator (λ _, boolean_validator))
        data "InversionTime" = true.
Proof.
  intros data. split; [| split].
  - destruct (main_required_conditions (λ _, boolean_validator) data
                "M0Type") as [Hgeneral _].
    apply Hgeneral. repeat constructor.
  - destruct (main_required_conditions (λ _, boolean_validator) data
                "PostLabelingDelay") as (_ & Hpcasl & _).
    intros H. apply Hpcasl in H; [| repeat constructor].
    destruct H as [H | H]; discriminate H.
  - destruct (main_required_conditions (λ _, boolean_validator) data
                "InversionTime") as (_ & _ & Hpasl).
    intros H. apply Hpasl in H; [| repeat constructor].
    discriminate H.
Defined.

Lemma validate_absent_not_required (self : JSONValidator.t)
    (data : gmap string pyval) (field : string) :
  data !! field = None → required_applies self data field = false →
  (JSONValidator.validate self data).1.1 !! field = None.
Proof.
  intros Habsent Hcond.
  pose proof (validate_at_absent self data field Habsent) as H.
  unfold at_field in H. injection H as -> _ _.
  by rewrite Hcond, andb_false_r.
Qed.

(** X20: the two entry points do not demand [LabelingDuration] of the same
    records.  For a CASL record without the field the engine, with the
    tables of [main], reports the missing parameter while
    [verify_PCASL_required_parameters] reports nothing and answers
    "Not applicable"; for a PASL record whose [ArterialSpinType] is "(P)CASL"
    it is the other way round. *)
Theorem labeling_duration_demand_differs :
  ∀ (validator_of : string → Validator) (data : gmap string pyval),
    data !! "LabelingDuration" = None →
    let errors :=
      (JSONValidator.validate (JSONValidator.main_validator validator_of)
         data).1.1 in
    (data !! "ArterialSpinLabelingType" = Some (PStr "CASL") →
     data !! "ArterialSpinType" ≠ Some (PStr "(P)CASL") →
     errors !! "LabelingDuration" = Some (PStr "Missing required parameter")
     ∧ ∃ values,
         verify_PCASL_required_parameters data = Ok ([], [], values)
         ∧ values !! "LabelingDuration" = Some (PStr "Not applicable"))
    ∧ (data !! "ArterialSpinLabelingType" = Some (PStr "PASL") →
       data !! "ArterialSpinType" = Some (PStr "(P)CASL") →
       errors !! "LabelingDuration" = None
       ∧ ∀ messages warnings values,
           verify_PCASL_required_parameters data
             = Ok (messages, warnings, values) →
           "Required labeling duration parameter for pcasl not provided"
             ∈ messages).
Proof.
  intros validator_of data Habsent errors. unfold errors. split.
  - intros Hcasl Hother. split.
    + apply validate_required_absent; [simpl; repeat constructor | | done].
      rewrite (main_required_condition _ JSONValidator.PCASL_or_CASL)
        by reflexivity.
      apply PCASL_or_CASL_holds. by right.
    + unfold verify_PCASL_required_parameters.
      destruct (pcasl_demanded data) eqn:Hd.
      { apply pcasl_demanded_spec in Hd as [Hd | Hd]; congruence. }
      eexists. split; [reflexivity |].
      rewrite lookup_insert_ne by done. apply lookup_insert_eq.
  - intros Hpasl Hother. split.
    + apply validate_absent_not_required; [done |].
      rewrite (main_required_condition _ JSONValidator.PCASL_or_CASL)
        by reflexivity.
      destruct (JSONValidator.should_apply_validation data
                  JSONValidator.PCASL_or_CASL) eqn:Hcond; [| done].
      apply PCASL_or_CASL_holds in Hcond as [Hcond | Hcond]; congruence.
    + intros messages warnings values.
      unfold verify_PCASL_required_parameters, get_or.
      rewrite (proj2 (pcasl_demanded_spec data)) by (by right).
      rewrite Habsent. simpl.
      split_is_None "PostLabelingDelay";
        [| destruct (validate_post_labeling_delay _)
             as [[[e2 w2] x2] |]; simpl; [| done] ];
        intros [= <- <- <-]; simpl; apply elem_of_cons; by left.
Qed.

Lemma labeling_duration_demand_differs_witness :
  let data : gmap string pyval :=
    {["ArterialSpinLabelingType" := PStr "CASL"]} in
  (JSONValidator.validate
     (JSONValidator.main_validator (λ _, boolean_validator)) data).1.1
    !! "LabelingDuration" = Some (PStr "Missing required parameter")
  ∧ ∃ values,
      verify_PCASL_required_parameters data = Ok ([], [], values)
      ∧ values !! "LabelingDuration" = Some (PStr "Not applicable").
Proof.
  intros data.
  destruct (labeling_duration_demand_differs (λ _, boolean_validator) data
              eq_refl) as [Hcasl _].
  apply Hcasl; [reflexivity |]. intros H. discriminate H.
Defined.

(** ** Where the stored messages come from *)

Lemma apply_schema_from_validators
    (condition_schema data : gmap string pyval) (is_required : bool)
    (listed schema : list (string * Validator)) (field : string)
    (raw : pyval) (out : outputs) :
  data !! field = Some raw → schema ⊆ listed →
  from_validators data listed field raw out →
  from_validators data listed field raw
    (JSONValidator.apply_schema schema condition_schema data out is_required).
Proof.
  intros Hpresent. revert out.
  induction schema as [| [g validator] schema IH] using rev_ind;
    intros out Hsub Hout; [done |].
  rewrite apply_schema_snoc.
  assert (schema ⊆ listed) as Hsub'.
  { intros entry Hentry. apply Hsub, elem_of_app. by left. }
  specialize (IH out Hsub' Hout).
  set (mid := JSONValidator.apply_schema schema condition_schema data out
                is_required) in *.
  destruct (decide (g = field)) as [-> | Hne].
  - destruct (JSONValidator.should_apply_validation data
                (default (PStr "all") (condition_schema !! field))) eqn:Hcond.
    + pose proof (apply_field_present condition_schema data is_required
                    mid field validator raw Hcond Hpresent) as Hstep.
      unfold at_field in Hstep. injection Hstep as Herr Hwarn _.
      assert ((field, validator) ∈ listed) as Hlisted.
      { apply Hsub, elem_of_app. right. apply elem_of_cons. by left. }
      destruct IH as [IHerr IHwarn]. split.
      * rewrite Herr.
        destruct (py_truthy (validate validator raw).1) eqn:Htruthy;
          [right; by exists validator | done].
      * rewrite Hwarn.
        destruct (py_truthy (validate validator raw).2) eqn:Htruthy;
          [right; by exists validator | done].
    + by rewrite apply_field_skip.
  - pose proof (apply_field_other condition_schema data is_required
                  mid g validator field Hne) as Hstep.
    unfold at_field in Hstep. injection Hstep as Herr Hwarn _.
    unfold from_validators. by rewrite Herr, Hwarn.
Qed.

(** X21: [validate] invents no message.  An entry of [errors] is the
    missing-parameter message of an absent field that the required schema
    lists with a condition that holds, or the truthy error that a validator
    listed for the field returns on the record's value; an entry of
    [warnings] is always the truthy warning that a validator listed for the
    field returns on the record's value. *)
Theorem validate_messages_provenance :
  ∀ (self : JSONValidator.t) (data : gmap string pyval) (field : string)
    (message : pyval),
    let listed :=
      JSONValidator.required_validator_schema self
      ++ JSONValidator.recommended_validator_schema self in
    ((JSONValidator.validate self data).1.1 !! field = Some message →
     (data !! field = None
      ∧ message = PStr "Missing required parameter"
      ∧ field ∈ (JSONValidator.required_validator_schema self).*1
      ∧ required_applies self data field = true)
     ∨ ∃ raw validator,
         data !! field = Some raw ∧ (field, validator) ∈ listed
         ∧ message = (validate validator raw).1
         ∧ py_truthy message = true)
    ∧ ((JSONValidator.validate self data).1.2 !! field = Some message →
       ∃ raw validator,
         data !! field = Some raw ∧ (field, validator) ∈ listed
         ∧ message = (validate validator raw).2
         ∧ py_truthy message = true).
Proof.
  intros self data field message listed.
  destruct (data !! field) as [raw |] eqn:Hdata.
  - assert (from_validators data listed field raw
              (JSONValidator.validate self data)) as [Herr Hwarn].
    { rewrite validate_passes.
      apply apply_schema_from_validators; [done | |].
      { intros entry Hentry. apply elem_of_app. by right. }
      apply apply_schema_from_validators; [done | |].
      { intros entry Hentry. apply elem_of_app. by left. }
      split; left; apply lookup_empty. }
    split; intros Hmsg.
    + right. destruct Herr as [Herr | (validator & Hin & Herr & Htruthy)];
        [congruence |].
      exists raw, validator. rewrite Hmsg in Herr. injection Herr as ->.
      done.
    + destruct Hwarn as [Hwarn | (validator & Hin & Hwarn & Htruthy)];
        [congruence |].
      exists raw, validator. rewrite Hmsg in Hwarn. injection Hwarn as ->.
      done.
  - pose proof (validate_at_absent self data field Hdata) as H.
    unfold at_field in H. injection H as Herr Hwarn _.
    split; intros Hmsg; [| congruence].
    left. rewrite Hmsg in Herr. clear Hmsg Hwarn.
    case_bool_decide as Hin; simpl in Herr; [| done].
    destruct (required_applies self data field); [| done].
    by injection Herr as ->.
Qed.

Lemma validate_messages_provenance_witness :
  let self :=
    {| JSONValidator.required_validator_schema :=
         [("BackgroundSuppression", boolean_validator)];
       JSONValidator.required_condition_schema := ∅;
       JSONValidator.recommended_validator_schema := [];
       JSONValidator.recommended_condition_schema := ∅ |} in
  let data : gmap string pyval := {["BackgroundSuppression" := PInt 2]} in
  (data !! "BackgroundSuppression" = None
   ∧ PStr "Invalid value (should be True or False)"
     = PStr "Missing required parameter"
   ∧ "BackgroundSuppression"
     ∈ (JSONValidator.required_validator_schema self).*1
   ∧ required_applies self data "BackgroundSuppression" = true)
  ∨ ∃ raw validator,
      data !! "BackgroundSuppression" = Some raw
      ∧ (("BackgroundSuppression", validator)
         ∈ JSONValidator.required_validator_schema self
           ++ JSONValidator.recommended_validator_schema self)
      ∧ PStr "Invalid value (should be True or False)"
        = (validate validator raw).1
      ∧ py_truthy (PStr "Invalid value (should be True or False)") = true.
Proof.
  intros self data.
  destruct (validate_messages_provenance self data "BackgroundSuppression"
              (PStr "Invalid value (should be True or False)"))
    as [Herr _].
  apply Herr. reflexivity.
Defined.

(** ** When the PCASL rule raises *)

Lemma not_None_not_number (data : gmap string pyval) (key : string) :
  (∃ v, data !! key = Some v ∧ v ≠ PNone ∧ num_of v = None) ↔
  default PNone (data !! key) ≠ PNone
  ∧ num_of (default PNone (data !! key)) = None.
Proof.
  destruct (data !! key) as [v |]; simpl.
  - split; [by intros (? & [= <-] & ? & ?) | intros [? ?]; by exists v].
  - split; [by intros (? & ? & _) | by intros [? _]].
Qed.

(** X22: [verify_PCASL_required_parameters] raises [TypeError] exactly when
    the two fields are demanded and the record holds, under
    [LabelingDuration] or under [PostLabelingDelay], a value that is neither
    [None] nor a number; in particular it never raises when the fields are
    not demanded, whatever the record holds under them. *)
Theorem verify_PCASL_raises_iff :
  ∀ data : gmap string pyval,
    verify_PCASL_required_parameters data = Raise TypeError ↔
    (data !! "ArterialSpinLabelingType" = Some (PStr "PCASL")
     ∨ data !! "ArterialSpinType" = Some (PStr "(P)CASL"))
    ∧ ((∃ v, data !! "LabelingDuration" = Some v
             ∧ v ≠ PNone ∧ num_of v = None)
       ∨ (∃ v, data !! "PostLabelingDelay" = Some v
               ∧ v ≠ PNone ∧ num_of v = None)).
Proof.
  intros data. rewrite <- pcasl_demanded_spec, !not_None_not_number.
  unfold verify_PCASL_required_parameters, get_or.
  generalize (default PNone (data !! "LabelingDuration")).
  generalize (default PNone (data !! "PostLabelingDelay")).
  intros pld ld.
  destruct (pcasl_demanded data); [| split; [done | by intros [? _]]].
  destruct (None_or_not ld) as [-> | Hld];
    [| rewrite (match_not_None _ _ _ Hld);
       destruct (num_of ld) as [x |] eqn:Hx;
       [ destruct (scalar_checks_return ld (mk_is_Some _ _ Hx))
           as (_ & (e1 & w1 & ->) & _)
       | destruct (scalar_checks_raise ld Hx) as (_ & -> & _) ] ];
    simpl;
    try (destruct (None_or_not pld) as [-> | Hpld];
         [| rewrite (match_not_None _ _ _ Hpld);
            destruct (num_of pld) as [y |] eqn:Hy;
            [ destruct (scalar_checks_return pld (mk_is_Some _ _ Hy))
                as (_ & _ & (e2 & w2 & ->) & _)
            | destruct (scalar_checks_raise pld Hy) as (_ & _ & -> & _) ] ];
         simpl);
    intuition congruence.
Qed.
